(** * TaycoBackend: the three read endpoints of [server.js]

    A shallow embedding of the Express handlers of [server.js]
    ([GET /order-headers], [GET /order-details/:orderNr],
    [GET /labels/:barcodeId] and the fallback), of the JavaScript
    primitives they use ([parseInt], [isNaN], [||], template literals) and
    of the MongoDB calls they issue ([distinct], [find], [findOne]).

    Conventions of the model.
    - A JavaScript string is a [string] holding its UTF-8 bytes.
    - A JavaScript number is [NaN], an infinity or an integer [Int z].
      What [parseInt] returns is a double that holds an integer:
      [round_to_double] gives the double nearest to the integer read, and
      [Number_toString] prints a number as JavaScript prints that double.
      [-0] is identified with [0] (both print as [0] and match the same
      documents).  Numbers with a fraction are outside the model.
    - A document is an association list from field names to scalar values;
      reading a field that is not there gives [undefined], as in
      JavaScript, and a field stored as [undefined] counts as not there.
      Arrays and embedded documents as field values are outside the
      model. *)

From Stdlib Require Import ZArith List Bool Lia.
From Stdlib Require Import Ascii String Decimal DecimalPos DecimalString.
From Stdlib Require Import Permutation.
Import ListNotations.

Local Open Scope string_scope.
Local Open Scope Z_scope.

(** ** JavaScript values *)

Module JS.

Inductive number : Type :=
| NaN
| Int (z : Z)
| Inf (negative : bool).

Inductive value : Type :=
| VUndefined
| VNull
| VBool (b : bool)
| VNum (n : number)
| VStr (s : string).

Definition number_eqb (a b : number) : bool :=
  match a, b with
  | NaN, NaN => true
  | Int x, Int y => Z.eqb x y
  | Inf x, Inf y => Bool.eqb x y
  | _, _ => false
  end.

(** Equality of stored scalars as the store compares them: by type and
    content ([NaN] equals [NaN] there). *)
Definition value_eqb (a b : value) : bool :=
  match a, b with
  | VUndefined, VUndefined => true
  | VNull, VNull => true
  | VBool x, VBool y => Bool.eqb x y
  | VNum x, VNum y => number_eqb x y
  | VStr x, VStr y => String.eqb x y
  | _, _ => false
  end.

(** [isNaN(n)] on a number. *)
Definition isNaN (n : number) : bool :=
  match n with
  | NaN => true
  | _ => false
  end.

(** *** Doubles that hold integers *)

(** The double nearest to the integer [z], ties going to the even
    mantissa: below 2^53 in magnitude the integer itself, beyond it the 53
    leading bits rounded, and an infinity from 2^1024 - 2^970 on. *)
Definition round_to_double (z : Z) : number :=
  let a := Z.abs z in
  let e := Z.log2 a - 52 in
  if e <=? 0 then Int z
  else
    let q := Z.shiftr a e in
    let r := a - Z.shiftl q e in
    let half := Z.shiftl 1 (e - 1) in
    let q' := if (half <? r) || ((r =? half) && Z.odd q) then q + 1 else q in
    let m := Z.shiftl q' e in
    if 2 ^ 1024 <=? m then Inf (z <? 0) else Int (Z.sgn z * m).

(** All the decimal digits of an integer, with its sign. *)
Definition decimal (z : Z) : string := NilZero.string_of_int (Z.to_int z).

Definition rounds_to (x m : Z) : bool :=
  number_eqb (round_to_double m) (Int x).

(** Of the two multiples of [p] around [x], the one that reads back as the
    double [x]; when both do, the nearer one, and the even one when they
    are as near. *)
Definition candidate (x p : Z) : option Z :=
  let lo := (x / p) * p in
  let hi := lo + p in
  match rounds_to x lo, rounds_to x hi with
  | true, true =>
      Some (if x - lo <? hi - x then lo
            else if hi - x <? x - lo then hi
            else if Z.even (x / p) then lo else hi)
  | true, false => Some lo
  | false, true => Some hi
  | false, false => None
  end.

Fixpoint shortest_from (x p : Z) (fuel : nat) : Z :=
  match fuel with
  | O => x
  | S f =>
      match candidate x p with
      | Some m => m
      | None => shortest_from x (p / 10) f
      end
  end.

Definition digit_count (a : Z) : Z := Z.of_nat (String.length (decimal a)).

(** The integer with the fewest significant digits that reads back as the
    positive double [x]: one significant digit is tried first, then two,
    and so on down to [x] itself. *)
Definition shortest (x : Z) : Z :=
  shortest_from x (10 ^ (digit_count x - 1)) (Z.to_nat (digit_count x)).

Fixpoint strip_zeros (rev_digits : list ascii) : list ascii :=
  match rev_digits with
  | c :: r => if Ascii.eqb c "0" then strip_zeros r else rev_digits
  | [] => []
  end.

(** [d.ddde+NN], the form of an integer of 22 digits or more. *)
Definition exponent_form (m : Z) : string :=
  let ds := list_ascii_of_string (decimal m) in
  let n := Z.of_nat (List.length ds) in
  let s := List.rev (strip_zeros (List.rev ds)) in
  match s with
  | [] => "0"
  | [d] => String d ("e+" ++ decimal (n - 1))
  | d :: more =>
      String d ("." ++ string_of_list_ascii more ++ "e+" ++ decimal (n - 1))
  end.

(** Number::toString.  An integer below 2^53 in magnitude prints all its
    digits.  A larger one stands for the double nearest to it and prints
    the shortest digits that read back as that double, followed by zeros
    up to 21 digits and in exponent form beyond. *)
Definition Number_toString (n : number) : string :=
  match n with
  | NaN => "NaN"
  | Inf false => "Infinity"
  | Inf true => "-Infinity"
  | Int z =>
      if Z.abs z <? 2 ^ 53 then decimal z
      else
        match round_to_double (Z.abs z) with
        | Int x =>
            let m := shortest x in
            (if z <? 0 then "-" else "")
            ++ (if m <? 10 ^ 21 then decimal m else exponent_form m)
        | _ => if z <? 0 then "-Infinity" else "Infinity"
        end
  end.

(** ToString, as a template literal applies it to an interpolated value. *)
Definition ToString (v : value) : string :=
  match v with
  | VUndefined => "undefined"
  | VNull => "null"
  | VBool true => "true"
  | VBool false => "false"
  | VNum n => Number_toString n
  | VStr s => s
  end.

(** ToBoolean: the falsy values are [undefined], [null], [false], [0],
    [NaN] and the empty string. *)
Definition truthy (v : value) : bool :=
  match v with
  | VUndefined => false
  | VNull => false
  | VBool b => b
  | VNum NaN => false
  | VNum (Int z) => negb (Z.eqb z 0)
  | VNum (Inf _) => true
  | VStr s => negb (String.eqb s "")
  end.

(** [a || b]. *)
Definition or_else (a b : value) : value :=
  if truthy a then a else b.

(** *** [parseInt(s, 10)] *)

Definition code (c : ascii) : N := N_of_ascii c.

(** Leading white space and line terminators, on the UTF-8 bytes:
    TAB, LF, VT, FF, CR, SP; U+00A0; U+1680; U+2000..U+200A, U+2028,
    U+2029, U+202F; U+205F; U+3000; U+FEFF. *)
Fixpoint trim_start (s : string) : string :=
  match s with
  | String c r =>
      if ((9 <=? code c) && (code c <=? 13) || (code c =? 32))%N then trim_start r
      else
        match code c, r with
        | 194%N, String d r1 =>
            if (code d =? 160)%N then trim_start r1 else s
        | 225%N, String d (String e r2) =>
            if ((code d =? 154) && (code e =? 128))%N then trim_start r2 else s
        | 226%N, String d (String e r2) =>
            if ((code d =? 128) &&
                ((128 <=? code e) && (code e <=? 138)
                 || (code e =? 168) || (code e =? 169) || (code e =? 175))
                || (code d =? 129) && (code e =? 159))%N
            then trim_start r2 else s
        | 227%N, String d (String e r2) =>
            if ((code d =? 128) && (code e =? 128))%N then trim_start r2 else s
        | 239%N, String d (String e r2) =>
            if ((code d =? 187) && (code e =? 191))%N then trim_start r2 else s
        | _, _ => s
        end
  | EmptyString => s
  end.

Definition is_digit (c : ascii) : bool :=
  ((48 <=? code c) && (code c <=? 57))%N.

Definition digit_value (c : ascii) : Z := Z.of_N (code c) - 48.

(** The longest prefix of decimal digits, and what follows it. *)
Fixpoint span_digits (s : string) : list ascii * string :=
  match s with
  | String c r =>
      if is_digit c then let (ds, rest) := span_digits r in (c :: ds, rest)
      else ([], s)
  | EmptyString => ([], s)
  end.

Definition digits_value (ds : list ascii) : Z :=
  fold_left (fun acc c => 10 * acc + digit_value c) ds 0.

(** The steps of [parseInt] for radix 10: trim, read the sign, drop it,
    take the digits; no digit gives [NaN], and the integer the digits
    denote becomes the nearest double. *)
Definition parseInt10 (input : string) : number :=
  let s := trim_start input in
  let sign :=
    match s with
    | String c _ => if Ascii.eqb c "-" then -1 else 1
    | EmptyString => 1
    end in
  let s1 :=
    match s with
    | String c r => if Ascii.eqb c "-" || Ascii.eqb c "+" then r else s
    | EmptyString => s
    end in
  match fst (span_digits s1) with
  | [] => NaN
  | ds => round_to_double (sign * digits_value ds)
  end.

(** [parseInt(v, 10)]: the argument goes through ToString first. *)
Definition parseInt (v : value) : number := parseInt10 (ToString v).

End JS.

Import JS.

(** ** Documents and the store *)

Module Mongo.

(** A document: its fields in stored order. *)
Definition doc : Type := list (string * value).

(** [d.k] as JavaScript reads it: [undefined] when the field is not there. *)
Fixpoint get (d : doc) (k : string) : value :=
  match d with
  | [] => VUndefined
  | (k', v) :: r => if String.eqb k' k then v else get r k
  end.

(** A query filter: [{ field: v }] or [{ field: { $in: vs } }]. *)
Inductive filter : Type :=
| FEq (field : string) (v : value)
| FIn (field : string) (vs : list value).

(** What a rejected store call carries: an [Error] with its [message]. *)
Record error : Type := { message : string }.

(** How an awaited call ends: it resolves, it rejects, or it never
    settles, and what awaits it waits for ever. *)
Inductive result (A : Type) : Type :=
| Ok (a : A)
| Throw (e : error)
| Pending.
Arguments Ok {A} a.
Arguments Throw {A} e.
Arguments Pending {A}.

(** The handle [client.db("Tayco")]: the three calls the handlers make,
    each given the collection name. *)
Record Database : Type := {
  distinct : string -> string -> result (list value);
  find : string -> filter -> result (list doc);
  findOne : string -> filter -> result (option doc)
}.

(** *** The store in memory *)

(** The documents of the two collections, and the order in which the
    store hands out the documents that match a query: some arrangement of
    them, each matching document once. *)
Record Store : Type := {
  Labels : list doc;
  OrderHeaders : list doc;
  arrange : list doc -> list doc;
  arrange_perm : forall l, Permutation (arrange l) l
}.

(** A store that hands documents out in the order they are listed. *)
Definition stored (labels headers : list doc) : Store := {|
  Labels := labels;
  OrderHeaders := headers;
  arrange := fun l => l;
  arrange_perm := fun l => Permutation_refl l
|}.

Definition collection (st : Store) (name : string) : list doc :=
  if String.eqb name "Labels" then Labels st
  else if String.eqb name "OrderHeaders" then OrderHeaders st
  else [].

(** Equality match of a stored field [x] against a query value [q]:
    same type and content; a [null] query (and [undefined], which the
    driver sends as [null]) also matches a field that is not there. *)
Definition eq_match (q x : value) : bool :=
  match q with
  | VNull | VUndefined =>
      match x with
      | VNull | VUndefined => true
      | _ => false
      end
  | _ => value_eqb q x
  end.

Definition matches (f : filter) (d : doc) : bool :=
  match f with
  | FEq k v => eq_match v (get d k)
  | FIn k vs => existsb (fun v => eq_match v (get d k)) vs
  end.

(** Each value once, in order of first occurrence. *)
Fixpoint dedup (l : list value) : list value :=
  match l with
  | [] => []
  | x :: r => x :: List.filter (fun y => negb (value_eqb x y)) (dedup r)
  end.

Definition present (v : value) : bool :=
  match v with
  | VUndefined => false
  | _ => true
  end.

(** [distinct(k)]: the values of [k] over the documents that have it. *)
Definition distinct_values (k : string) (docs : list doc) : list value :=
  dedup (List.filter present (map (fun d => get d k) docs)).

(** What [find] yields: the matching documents, as the store arranges
    them. *)
Definition found_docs (st : Store) (c : string) (f : filter) : list doc :=
  arrange st (List.filter (matches f) (collection st c)).

(** A store that answers every call from the documents it holds;
    [findOne] yields the first document that [find] would. *)
Definition mem_db (st : Store) : Database := {|
  distinct := fun c k => Ok (distinct_values k (collection st c));
  find := fun c f => Ok (found_docs st c f);
  findOne := fun c f => Ok (hd_error (found_docs st c f))
|}.

(** A store whose every call rejects with [e]. *)
Definition failing_db (e : error) : Database := {|
  distinct := fun _ _ => Throw e;
  find := fun _ _ => Throw e;
  findOne := fun _ _ => Throw e
|}.

(** A store none of whose calls ever settles. *)
Definition stalled_db : Database := {|
  distinct := fun _ _ => Pending;
  find := fun _ _ => Pending;
  findOne := fun _ _ => Pending
|}.

End Mongo.

Import Mongo.

(** ** Handler effects: store calls and console output, with exceptions *)

(** [ConsoleStack level name] is [console[level](err.stack)] for an error
    of the kind [name]; the lines of the stack are left out. *)
Inductive event : Type :=
| Distinct (coll field : string)
| Find (coll : string) (f : filter)
| FindOne (coll : string) (f : filter)
| Console (level msg : string)
| ConsoleStack (level name : string).

(** A computation run against the store handle: its outcome and the
    events it performed, in order.  [Pending] is a run that waits for ever
    for the last of them. *)
Definition M (A : Type) : Type := Database -> result A * list event.

Definition ret {A} (a : A) : M A := fun _ => (Ok a, []).

Definition bind {A B} (m : M A) (k : A -> M B) : M B :=
  fun db =>
    match m db with
    | (Ok a, t) => let (r, t') := k a db in (r, (t ++ t')%list)
    | (Throw e, t) => (Throw e, t)
    | (Pending, t) => (Pending, t)
    end.

(** [try { m } catch (error) { h error }]. *)
Definition try_catch {A} (m : M A) (h : error -> M A) : M A :=
  fun db =>
    match m db with
    | (Ok a, t) => (Ok a, t)
    | (Throw e, t) => let (r, t') := h e db in (r, (t ++ t')%list)
    | (Pending, t) => (Pending, t)
    end.

Declare Scope handler_scope.
Delimit Scope handler_scope with handler.
Notation "x <- m ;; k" := (bind m (fun x => k))
  (at level 100, m at next level, right associativity) : handler_scope.
Notation "m ;; k" := (bind m (fun _ => k))
  (at level 100, right associativity) : handler_scope.

(** [await database.collection(c).distinct(k)] and its siblings. *)
Definition await_distinct (c k : string) : M (list value) :=
  fun db => (distinct db c k, [Distinct c k]).

Definition await_find (c : string) (f : filter) : M (list doc) :=
  fun db => (find db c f, [Find c f]).

Definition await_findOne (c : string) (f : filter) : M (option doc) :=
  fun db => (findOne db c f, [FindOne c f]).

Definition console (level msg : string) : M unit :=
  fun _ => (Ok tt, [Console level msg]).

(** ** The route handlers of [server.js] *)

Module Server.

Local Open Scope handler_scope.

(** [req]: the handlers read only [req.params]. *)
Record request : Type := { params : doc }.

(** One element of [Details] in the order detail response. *)
Record detail : Type := {
  ItemNumber : value;
  Quantity : value;
  ItemDescription : value;
  PickAreaName : value;
  SmallText : value;
  UOM : value;
  BarcodeID : value
}.

(** The value handed to [res.json], or the page Express writes itself. *)
Inductive payload : Type :=
| ErrorBody (error : string)
| DocArray (docs : list doc)
| OrderDetails (OrderNr : number) (PlantDate : value) (Details : list detail)
| Document (d : doc)
| ErrorPage.

Record response : Type := { status : Z; body : payload }.

(** [res.status(code).json(b)]. *)
Definition json (code : Z) (b : payload) : M response :=
  ret {| status := code; body := b |}.

(** [app.get("/order-headers", ...)].  A call that resolves yields an
    array, never [null], so [!x || x.length === 0] is the length test. *)
Definition order_headers (req : request) : M response :=
  try_catch
    (validOrderNumbers <- await_distinct "Labels" "OrderNr" ;;
     if (List.length validOrderNumbers =? 0)%nat then
       console "warn" "[WARN] No valid orders found in Labels." ;;
       json 404 (ErrorBody "No valid orders found.")
     else
       orders <- await_find "OrderHeaders" (FIn "OrderNr" validOrderNumbers) ;;
       if (List.length orders =? 0)%nat then
         console "warn" "[WARN] No matching orders found in OrderHeaders." ;;
         json 404 (ErrorBody "No matching orders found.")
       else
         json 200 (DocArray orders))
    (fun error =>
       console "error"
         ("[ERROR] Error fetching valid orders: " ++ message error) ;;
       json 500 (ErrorBody "Error fetching valid orders.")).

(** The object built for one label in [orderDetails.map(...)]. *)
Definition detail_of (orderNr : number) (label : doc) : detail := {|
  ItemNumber := get label "ItemNumber";
  Quantity := get label "Quantity";
  ItemDescription := get label "ItemDescription";
  PickAreaName := get label "PickAreaName";
  SmallText := or_else (get label "SmallText") VNull;
  UOM := or_else (get label "UOM") VNull;
  BarcodeID :=
    or_else (get label "barcodeId")
      (VStr (Number_toString orderNr ++ "-"
             ++ ToString (get label "ItemNumber")))
|}.

(** [orderDetails[0]?.PlantDate]. *)
Definition first_PlantDate (orderDetails : list doc) : value :=
  match nth_error orderDetails 0 with
  | Some label => get label "PlantDate"
  | None => VUndefined
  end.

(** [app.get("/order-details/:orderNr", ...)]. *)
Definition order_details (req : request) : M response :=
  try_catch
    (let orderNr := parseInt (get (params req) "orderNr") in
     if isNaN orderNr then
       json 400 (ErrorBody "OrderNr must be a valid number.")
     else
       orderDetails <- await_find "Labels" (FEq "OrderNr" (VNum orderNr)) ;;
       if (List.length orderDetails =? 0)%nat then
         json 404
           (ErrorBody
              ("No valid labels found for OrderNr: " ++ Number_toString orderNr))
       else
         json 200
           (OrderDetails orderNr
              (or_else (first_PlantDate orderDetails) VNull)
              (map (detail_of orderNr) orderDetails)))
    (fun error =>
       console "error"
         ("[ERROR] Error fetching order details: " ++ message error) ;;
       json 500 (ErrorBody "Error fetching order details.")).

(** [app.get("/labels/:barcodeId", ...)]. *)
Definition labels (req : request) : M response :=
  try_catch
    (let barcodeId := get (params req) "barcodeId" in
     if negb (truthy barcodeId) then
       json 400 (ErrorBody "Barcode ID is required.")
     else
       console "log"
         ("[DEBUG] Searching for label with Barcode ID: " ++ ToString barcodeId) ;;
       label <- await_findOne "Labels" (FEq "barcodeId" barcodeId) ;;
       match label with
       | None =>
           console "warn" ("[WARN] Label not found for ID: " ++ ToString barcodeId) ;;
           json 404 (ErrorBody ("Label not found for ID: " ++ ToString barcodeId))
       | Some found => json 200 (Document found)
       end)
    (fun error =>
       console "error"
         ("[ERROR] Fetching label failed for Barcode ID: "
          ++ ToString (get (params req) "barcodeId")
          ++ ". Error: " ++ message error) ;;
       json 500 (ErrorBody "Error fetching label.")).

(** [app.use((req, res) => ...)]: the fallback. *)
Definition fallback (req : request) : M response :=
  json 404 (ErrorBody "Route not found.").

End Server.

Import Server.

(** ** Routing: how a GET request reaches a handler *)

Module Express.

(** Route paths are matched without regard to the case of ASCII letters. *)
Definition lower (c : ascii) : ascii :=
  if ((65 <=? code c) && (code c <=? 90))%N then ascii_of_N (code c + 32) else c.

(** [strip_prefix_ci lit path]: what is left of [path] after [lit]. *)
Fixpoint strip_prefix_ci (lit path : string) : option string :=
  match lit with
  | EmptyString => Some path
  | String a lit' =>
      match path with
      | String b path' =>
          if Ascii.eqb (lower a) (lower b) then strip_prefix_ci lit' path'
          else None
      | EmptyString => None
      end
  end.

(** One trailing slash is optional. *)
Fixpoint chop_slash (s : string) : string :=
  match s with
  | EmptyString => EmptyString
  | String c EmptyString => if Ascii.eqb c "/" then EmptyString else s
  | String c r => String c (chop_slash r)
  end.

Fixpoint no_slash (s : string) : bool :=
  match s with
  | EmptyString => true
  | String c r => negb (Ascii.eqb c "/") && no_slash r
  end.

(** A path without parameters, such as ["/order-headers"], for which
    Express builds the pattern [^\/order-headers\/?$], case ignored. *)
Definition match_literal (lit path : string) : bool :=
  match strip_prefix_ci lit path with
  | Some rest => String.eqb (chop_slash rest) ""
  | None => false
  end.

(** A path ending in one parameter, such as ["/labels/:barcodeId"], given
    as its literal part ["/labels/"].  Express builds the pattern
    [^\/labels\/(?:([^\/]+?))\/?$], case ignored: the parameter is one or
    more characters other than the slash. *)
Definition match_param (lit path : string) : option string :=
  match strip_prefix_ci lit path with
  | Some rest =>
      let seg := chop_slash rest in
      if negb (String.eqb seg "") && no_slash seg then Some seg else None
  | None => None
  end.

(** *** [decodeURIComponent], which Express applies to a parameter *)

Definition hex (c : ascii) : option N :=
  let n := code c in
  if ((48 <=? n) && (n <=? 57))%N then Some (n - 48)%N
  else if ((65 <=? n) && (n <=? 70))%N then Some (n - 55)%N
  else if ((97 <=? n) && (n <=? 102))%N then Some (n - 87)%N
  else None.

Inductive octet : Type :=
| Plain (c : ascii)
| Escaped (b : N).

(** Every [%] must be followed by two hexadecimal digits. *)
Fixpoint unescape (s : string) : option (list octet) :=
  match s with
  | EmptyString => Some []
  | String c r =>
      if Ascii.eqb c "%" then
        match r with
        | String h (String l r2) =>
            match hex h, hex l with
            | Some x, Some y =>
                option_map (cons (Escaped (16 * x + y)%N)) (unescape r2)
            | _, _ => None
            end
        | _ => None
        end
      else option_map (cons (Plain c)) (unescape r)
  end.

Definition between (lo b hi : N) : bool := ((lo <=? b) && (b <=? hi))%N.

(** An escaped byte of 128 or more must start a well-formed UTF-8
    sequence, all of whose bytes are escaped. *)
Fixpoint utf8 (l : list octet) : option (list ascii) :=
  match l with
  | [] => Some []
  | Plain c :: r => option_map (cons c) (utf8 r)
  | Escaped b :: r =>
      if (b <? 128)%N then option_map (cons (ascii_of_N b)) (utf8 r)
      else
        match r with
        | Escaped b1 :: r1 =>
            if between 194 b 223 then
              if between 128 b1 191 then
                option_map (fun t => ascii_of_N b :: ascii_of_N b1 :: t) (utf8 r1)
              else None
            else
              match r1 with
              | Escaped b2 :: r2 =>
                  if between 224 b 239 then
                    if (if (b =? 224)%N then between 160 b1 191
                        else if (b =? 237)%N then between 128 b1 159
                        else between 128 b1 191)
                       && between 128 b2 191
                    then
                      option_map
                        (fun t => ascii_of_N b :: ascii_of_N b1 :: ascii_of_N b2 :: t)
                        (utf8 r2)
                    else None
                  else
                    match r2 with
                    | Escaped b3 :: r3 =>
                        if between 240 b 244
                           && (if (b =? 240)%N then between 144 b1 191
                               else if (b =? 244)%N then between 128 b1 143
                               else between 128 b1 191)
                           && between 128 b2 191 && between 128 b3 191
                        then
                          option_map
                            (fun t =>
                               ascii_of_N b :: ascii_of_N b1
                               :: ascii_of_N b2 :: ascii_of_N b3 :: t)
                            (utf8 r3)
                        else None
                    | _ => None
                    end
              | _ => None
              end
        | _ => None
        end
  end.

(** [None] stands for the [URIError] it throws. *)
Definition decodeURIComponent (s : string) : option string :=
  match unescape s with
  | Some l => option_map string_of_list_ascii (utf8 l)
  | None => None
  end.

(** The handler [h] called with the parameter [name] captured as [raw];
    a parameter that does not decode is answered 400 by Express itself,
    with a page of its own, and Express writes the stack of the
    [URIError] with [console.error] (unless [NODE_ENV] is [test]). *)
Definition with_param (name raw : string) (h : request -> M response)
  : M response :=
  match decodeURIComponent raw with
  | Some v => h {| params := [(name, VStr v)] |}
  | None =>
      fun _ =>
        (Ok {| status := 400; body := ErrorPage |},
         [ConsoleStack "error" "URIError"])
  end.

(** A GET request without a body for [path] (the URL without its query
    string), through the routes in the order [server.js] registers them. *)
Definition app_get (path : string) : M response :=
  if match_literal "/order-headers" path then
    order_headers {| params := [] |}
  else
    match match_param "/order-details/" path with
    | Some raw => with_param "orderNr" raw order_details
    | None =>
        match match_param "/labels/" path with
        | Some raw => with_param "barcodeId" raw labels
        | None => fallback {| params := [] |}
        end
    end.

End Express.

Import Express.

(** ** Vocabulary of the statements *)

(** The queries the handlers send. *)
Definition headers_query (vs : list value) : filter := FIn "OrderNr" vs.

Definition labels_of_order (n : Z) : filter := FEq "OrderNr" (VNum (Int n)).

(** The same query for any number that [parseInt] can return. *)
Definition labels_of_number (x : number) : filter := FEq "OrderNr" (VNum x).

(** [req.params.orderNr] and [req.params.barcodeId]. *)
Definition orderNr_param (req : request) : value := get (params req) "orderNr".

Definition barcodeId_param (req : request) : value :=
  get (params req) "barcodeId".

Definition label_by_barcode (req : request) : filter :=
  FEq "barcodeId" (barcodeId_param req).

Definition searching (req : request) : event :=
  Console "log"
    ("[DEBUG] Searching for label with Barcode ID: "
     ++ ToString (barcodeId_param req)).

Definition starts_with_digit (s : string) : bool :=
  match s with
  | String d _ => is_digit d
  | EmptyString => false
  end.

(** After the leading white space, an optional sign and then a digit. *)
Definition starts_with_integer (s : string) : bool :=
  match trim_start s with
  | String c r =>
      if Ascii.eqb c "-" || Ascii.eqb c "+" then starts_with_digit r
      else is_digit c
  | EmptyString => false
  end.

(** The whole string is an optional sign and one or more digits. *)
Definition is_integer_literal (s : string) : bool :=
  let body :=
    match s with
    | String c r => if Ascii.eqb c "-" || Ascii.eqb c "+" then r else s
    | EmptyString => s
    end in
  match span_digits body with
  | (_ :: _, EmptyString) => true
  | _ => false
  end.

(** The integer a decimal numeral denotes, read from its first digit on,
    [acc] being the value of the digits read so far. *)
Fixpoint uint_value (d : Decimal.uint) (acc : Z) : Z :=
  match d with
  | Nil => acc
  | D0 l => uint_value l (10 * acc + 0)
  | D1 l => uint_value l (10 * acc + 1)
  | D2 l => uint_value l (10 * acc + 2)
  | D3 l => uint_value l (10 * acc + 3)
  | D4 l => uint_value l (10 * acc + 4)
  | D5 l => uint_value l (10 * acc + 5)
  | D6 l => uint_value l (10 * acc + 6)
  | D7 l => uint_value l (10 * acc + 7)
  | D8 l => uint_value l (10 * acc + 8)
  | D9 l => uint_value l (10 * acc + 9)
  end.

(** What can stand before the digits. *)
Inductive sign : Type := NoSign | Plus | Minus.

Definition sign_text (sg : sign) : string :=
  match sg with
  | NoSign => ""
  | Plus => "+"
  | Minus => "-"
  end.

Definition sign_factor (sg : sign) : Z :=
  match sg with
  | Minus => -1
  | _ => 1
  end.

(** The labels whose [OrderNr] is the number [n], in the order in which
    the store hands them out. *)
Definition labels_with_OrderNr (n : Z) (st : Store) : list doc :=
  arrange st
    (List.filter (fun l => value_eqb (get l "OrderNr") (VNum (Int n)))
       (Labels st)).

(** The identifier made up for a label that brings no barcode of its own:
    order number, hyphen, item number. *)
Definition synthesized (n : Z) (l : doc) : value :=
  VStr (Number_toString (Int n) ++ "-" ++ ToString (get l "ItemNumber")).



(** The response of a handler run against a store. *)
Definition responds (m : M response) (db : Database) (r : response) : Prop :=
  fst (m db) = Ok r.

(** A field that is there but falsy, such as [""] or [0]. *)
Definition present_but_falsy (v : value) : Prop :=
  v <> VUndefined /\ truthy v = false.

(** The [BarcodeID] of the entry for label [l] of order [n]. *)
Definition barcode_rule (n : Z) (l : doc) (e : detail) : Prop :=
  BarcodeID e =
    if truthy (get l "barcodeId") then get l "barcodeId" else synthesized n l.

(** What the detail response does with fields that are there but falsy. *)
Definition falsy_rule (n : Z) (l : doc) (e : detail) : Prop :=
  (present_but_falsy (get l "SmallText") -> SmallText e = VNull) /\
  (present_but_falsy (get l "UOM") -> UOM e = VNull) /\
  (present_but_falsy (get l "barcodeId") -> BarcodeID e = synthesized n l).

Definition empty_store : Store := stored [] [].

(** A request carrying the one route parameter [name]. *)
Definition request_with (name text : string) : request :=
  {| params := [(name, VStr text)] |}.

(** *** Sample data *)

Definition no_params : request := {| params := [] |}.

Definition label_7_X1 : doc :=
  [("OrderNr", VNum (Int 7)); ("ItemNumber", VStr "X1");
   ("barcodeId", VUndefined)].

Definition label_7_B123 : doc :=
  [("barcodeId", VStr "B123"); ("OrderNr", VNum (Int 7));
   ("ItemNumber", VStr "X2"); ("Quantity", VNum (Int 4));
   ("SmallText", VStr ""); ("UOM", VNum (Int 0))].

(** A label whose [barcodeId] is there and empty. *)
Definition label_7_blank : doc :=
  [("OrderNr", VNum (Int 7)); ("ItemNumber", VStr "X1"); ("barcodeId", VStr "")].

Definition header_7 : doc := [("OrderNr", VNum (Int 7)); ("Customer", VStr "Acme")].

Definition header_8 : doc := [("OrderNr", VNum (Int 8))].

Definition store_7 : Store :=
  stored [label_7_X1; label_7_B123] [header_7; header_8].

Definition store_7_blank : Store := stored [label_7_blank] [header_7].

(** Labels for order 7, but no header at all. *)
Definition store_no_headers : Store := stored [label_7_X1] [].

Definition boom : error := {| message := "connection reset" |}.

(** *** Vocabulary of the further properties *)

Definition is_store_call (ev : event) : bool :=
  match ev with
  | Console _ _ | ConsoleStack _ _ => false
  | _ => true
  end.

(** The store calls of a run, console output left aside. *)
Definition store_calls (t : list event) : list event :=
  List.filter is_store_call t.

(** The store call [q] was rejected by [db] with the error [e]. *)
Definition rejected (db : Database) (q : event) (e : error) : Prop :=
  match q with
  | Distinct c k => distinct db c k = Throw e
  | Find c f => find db c f = Throw e
  | FindOne c f => findOne db c f = Throw e
  | Console _ _ | ConsoleStack _ _ => False
  end.

(** A store none of whose calls rejects. *)
Definition resolves (db : Database) : Prop :=
  (forall c k, exists vs, distinct db c k = Ok vs) /\
  (forall c f, exists ds, find db c f = Ok ds) /\
  (forall c f, exists d, findOne db c f = Ok d).

Definition null_or_truthy (v : value) : Prop :=
  v = VNull \/ truthy v = true.

(** Some label carries the [OrderNr] of the header [h]. *)
Definition labelled (st : Store) (h : doc) : bool :=
  existsb (fun l => value_eqb (get l "OrderNr") (get h "OrderNr")) (Labels st).

(** A path segment with no [%] and no slash in it: the decimal digits of
    an integer, with its sign, are one. *)
Fixpoint plain (s : string) : bool :=
  match s with
  | EmptyString => true
  | String c r => negb (Ascii.eqb c "%") && negb (Ascii.eqb c "/") && plain r
  end.

(** ** Start-up: lines 1 to 43 of [server.js] *)

Module Startup.

(** What [app.listen(port, ...)] can do: listen and call back, throw at
    once (a port that is no port), or fail later (a port in use). *)
Inductive listen_outcome : Type :=
| Listening
| ListenThrows (e : error)
| ListenFails (e : error).

(** What the surroundings answer during start-up; after a call that
    never settles nothing more happens. *)
Record world : Type := {
  new_client : result unit;
  connect : result unit;
  listen : listen_outcome
}.

Inductive boot_event : Type :=
| BConsole (level text : string)
| BConsoleError (text : string) (e : error)
| BExit (code : Z)
| BNewClient (uri : value)
| BConnect
| BListen (port : value)
| BUncaught (e : error).

(** [process.env.PORT || 3000]. *)
Definition port_of (env : doc) : value :=
  or_else (get env "PORT") (VNum (Int 3000)).

(** The [catch] block of [startServer]. *)
Definition connection_error (e : error) : list boot_event :=
  [BConsoleError "[ERROR] MongoDB connection error:" e; BExit 1].

(** [startServer()], the client being constructed. *)
Definition startServer (port : value) (w : world) : list boot_event :=
  BConnect ::
  match connect w with
  | Pending => []
  | Throw e => connection_error e
  | Ok _ =>
      BConsole "log" "[INFO] Successfully connected to MongoDB!" ::
      BListen port ::
      match listen w with
      | Listening =>
          [BConsole "log" ("[INFO] Server is running on port " ++ ToString port)]
      | ListenThrows e => connection_error e
      | ListenFails e => [BUncaught e]
      end
  end.

(** The module from its first line to the call of [startServer], given
    [process.env] as [env]; [process.exit] ends the run. *)
Definition main (env : doc) (w : world) : list boot_event :=
  let port := port_of env in
  let uri := get env "MONGODB_URI" in
  if negb (truthy uri) then
    [BConsole "error" "[ERROR] MONGODB_URI is not defined in the .env file.";
     BExit 1]
  else
    BNewClient uri ::
    match new_client w with
    | Pending => []
    | Throw e => [BUncaught e]
    | Ok _ => startServer port w
    end.

End Startup.

Import Startup.

Definition calm_world : world :=
  {| new_client := Ok tt; connect := Ok tt; listen := Listening |}.

Definition env_sample : doc :=
  [("MONGODB_URI", VStr "mongodb://localhost:27017"); ("PORT", VStr "")].

(** The store calls one request can make: none; one read of [Labels];
    the distinct query alone; or the distinct query and then the query of
    [OrderHeaders] for the very numbers it answered. *)
Definition calls_shape (db : Database) (t : list event) : Prop :=
  store_calls t = [] \/
  (exists f, store_calls t = [Find "Labels" f]) \/
  (exists f, store_calls t = [FindOne "Labels" f]) \/
  store_calls t = [Distinct "Labels" "OrderNr"] \/
  (exists vs,
     distinct db "Labels" "OrderNr" = Ok vs /\ vs <> [] /\
     store_calls t =
       [Distinct "Labels" "OrderNr"; Find "OrderHeaders" (headers_query vs)]).

(** A 500 comes right after a store call that rejected, whose message is
    the last thing written, with [console.error]. *)
Definition failure_logged (db : Database) (t : list event) : Prop :=
  exists pre q e prefix,
    t = (pre ++ [q; Console "error" (prefix ++ message e)])%list /\
    rejected db q e.

Definition usual_status (r : response) : Prop :=
  status r = 200 \/ status r = 400 \/ status r = 404 \/ status r = 500.

(** The store call [q] never settles with [db]. *)
Definition stalled (db : Database) (q : event) : Prop :=
  match q with
  | Distinct c k => distinct db c k = Pending
  | Find c f => find db c f = Pending
  | FindOne c f => findOne db c f = Pending
  | Console _ _ | ConsoleStack _ _ => False
  end.

(** A store all of whose calls settle: each resolves or rejects. *)
Definition settles (db : Database) : Prop :=
  (forall c k, distinct db c k <> Pending) /\
  (forall c f, find db c f <> Pending) /\
  (forall c f, findOne db c f <> Pending).

(** The request stays open: the last thing that happened is a store call
    that never settles. *)
Definition left_open (db : Database) (t : list event) : Prop :=
  exists pre q, t = (pre ++ [q])%list /\ stalled db q.

(** What holds of every run that ends in a response. *)
Definition well_run (db : Database) (r : response) (t : list event) : Prop :=
  usual_status r /\
  (status r = 400 ->
   store_calls t = [] /\ (forall msg, body r = ErrorBody msg -> t = [])) /\
  calls_shape db t /\
  (status r = 500 -> failure_logged db t) /\
  (status r <> 500 -> forall q e, In q t -> ~ rejected db q e).

(** What holds of every run: it ends in a response, or it stays open; no
    exception leaves it. *)
Definition fine_run (db : Database) (o : result response * list event)
  : Prop :=
  match o with
  | (Ok r, t) => well_run db r t
  | (Throw _, _) => False
  | (Pending, t) => left_open db t
  end.

(** *** The runs of the handlers, case by case *)

(** The runs of the listing handler against [db]. *)
Inductive order_headers_run (db : Database)
  : result response * list event -> Prop :=
| listing_distinct_rejects (e : error) :
    distinct db "Labels" "OrderNr" = Throw e ->
    order_headers_run db
      (Ok {| status := 500; body := ErrorBody "Error fetching valid orders." |},
       [Distinct "Labels" "OrderNr";
        Console "error" ("[ERROR] Error fetching valid orders: " ++ message e)])
| listing_distinct_stalls :
    distinct db "Labels" "OrderNr" = Pending ->
    order_headers_run db (Pending, [Distinct "Labels" "OrderNr"])
| listing_no_numbers :
    distinct db "Labels" "OrderNr" = Ok [] ->
    order_headers_run db
      (Ok {| status := 404; body := ErrorBody "No valid orders found." |},
       [Distinct "Labels" "OrderNr";
        Console "warn" "[WARN] No valid orders found in Labels."])
| listing_find_rejects (vs : list value) (e : error) :
    distinct db "Labels" "OrderNr" = Ok vs -> vs <> [] ->
    find db "OrderHeaders" (headers_query vs) = Throw e ->
    order_headers_run db
      (Ok {| status := 500; body := ErrorBody "Error fetching valid orders." |},
       [Distinct "Labels" "OrderNr"; Find "OrderHeaders" (headers_query vs);
        Console "error" ("[ERROR] Error fetching valid orders: " ++ message e)])
| listing_find_stalls (vs : list value) :
    distinct db "Labels" "OrderNr" = Ok vs -> vs <> [] ->
    find db "OrderHeaders" (headers_query vs) = Pending ->
    order_headers_run db
      (Pending,
       [Distinct "Labels" "OrderNr"; Find "OrderHeaders" (headers_query vs)])
| listing_no_orders (vs : list value) :
    distinct db "Labels" "OrderNr" = Ok vs -> vs <> [] ->
    find db "OrderHeaders" (headers_query vs) = Ok [] ->
    order_headers_run db
      (Ok {| status := 404; body := ErrorBody "No matching orders found." |},
       [Distinct "Labels" "OrderNr"; Find "OrderHeaders" (headers_query vs);
        Console "warn" "[WARN] No matching orders found in OrderHeaders."])
| listing_found (vs : list value) (orders : list doc) :
    distinct db "Labels" "OrderNr" = Ok vs -> vs <> [] ->
    find db "OrderHeaders" (headers_query vs) = Ok orders -> orders <> [] ->
    order_headers_run db
      (Ok {| status := 200; body := DocArray orders |},
       [Distinct "Labels" "OrderNr"; Find "OrderHeaders" (headers_query vs)]).

(** The runs of the order detail handler on [req] against [db]. *)
Inductive order_details_run (db : Database) (req : request)
  : result response * list event -> Prop :=
| details_not_a_number :
    parseInt (orderNr_param req) = NaN ->
    order_details_run db req
      (Ok {| status := 400;
             body := ErrorBody "OrderNr must be a valid number." |}, [])
| details_find_rejects (x : number) (e : error) :
    parseInt (orderNr_param req) = x -> isNaN x = false ->
    find db "Labels" (labels_of_number x) = Throw e ->
    order_details_run db req
      (Ok {| status := 500; body := ErrorBody "Error fetching order details." |},
       [Find "Labels" (labels_of_number x);
        Console "error"
          ("[ERROR] Error fetching order details: " ++ message e)])
| details_find_stalls (x : number) :
    parseInt (orderNr_param req) = x -> isNaN x = false ->
    find db "Labels" (labels_of_number x) = Pending ->
    order_details_run db req (Pending, [Find "Labels" (labels_of_number x)])
| details_no_labels (x : number) :
    parseInt (orderNr_param req) = x -> isNaN x = false ->
    find db "Labels" (labels_of_number x) = Ok [] ->
    order_details_run db req
      (Ok {| status := 404;
             body := ErrorBody ("No valid labels found for OrderNr: "
                                ++ Number_toString x) |},
       [Find "Labels" (labels_of_number x)])
| details_found (x : number) (ls : list doc) :
    parseInt (orderNr_param req) = x -> isNaN x = false ->
    find db "Labels" (labels_of_number x) = Ok ls -> ls <> [] ->
    order_details_run db req
      (Ok {| status := 200;
             body := OrderDetails x (or_else (first_PlantDate ls) VNull)
                       (map (detail_of x) ls) |},
       [Find "Labels" (labels_of_number x)]).

(** The runs of the label handler on [req] against [db]. *)
Inductive labels_run (db : Database) (req : request)
  : result response * list event -> Prop :=
| lookup_no_barcode :
    truthy (barcodeId_param req) = false ->
    labels_run db req
      (Ok {| status := 400; body := ErrorBody "Barcode ID is required." |}, [])
| lookup_rejects (e : error) :
    truthy (barcodeId_param req) = true ->
    findOne db "Labels" (label_by_barcode req) = Throw e ->
    labels_run db req
      (Ok {| status := 500; body := ErrorBody "Error fetching label." |},
       [searching req; FindOne "Labels" (label_by_barcode req);
        Console "error"
          ("[ERROR] Fetching label failed for Barcode ID: "
           ++ ToString (barcodeId_param req) ++ ". Error: " ++ message e)])
| lookup_stalls :
    truthy (barcodeId_param req) = true ->
    findOne db "Labels" (label_by_barcode req) = Pending ->
    labels_run db req
      (Pending, [searching req; FindOne "Labels" (label_by_barcode req)])
| lookup_not_found :
    truthy (barcodeId_param req) = true ->
    findOne db "Labels" (label_by_barcode req) = Ok None ->
    labels_run db req
      (Ok {| status := 404;
             body := ErrorBody ("Label not found for ID: "
                                ++ ToString (barcodeId_param req)) |},
       [searching req; FindOne "Labels" (label_by_barcode req);
        Console "warn"
          ("[WARN] Label not found for ID: "
           ++ ToString (barcodeId_param req))])
| lookup_found (label : doc) :
    truthy (barcodeId_param req) = true ->
    findOne db "Labels" (label_by_barcode req) = Ok (Some label) ->
    labels_run db req
      (Ok {| status := 200; body := Document label |},
       [searching req; FindOne "Labels" (label_by_barcode req)]).

(** ** Facts about values and the store in memory *)

Lemma number_eqb_eq (a b : number) : number_eqb a b = true <-> a = b.
Proof.
  destruct a, b; simpl; split; try congruence; try reflexivity.
  - intros H. apply Z.eqb_eq in H. now subst.
  - intros H. injection H as ->. apply Z.eqb_refl.
  - intros H. apply Bool.eqb_prop in H. now subst.
  - intros H. injection H as ->. apply Bool.eqb_reflx.
Qed.

Lemma value_eqb_eq (a b : value) : value_eqb a b = true <-> a = b.
Proof.
  destruct a, b; simpl; split; try congruence; try reflexivity.
  - intros H. apply Bool.eqb_prop in H. now subst.
  - intros H. injection H as ->. apply Bool.eqb_reflx.
  - intros H. apply number_eqb_eq in H. now subst.
  - intros H. injection H as ->. now apply number_eqb_eq.
  - intros H. apply String.eqb_eq in H. now subst.
  - intros H. injection H as ->. apply String.eqb_refl.
Qed.

Lemma value_eqb_refl (a : value) : value_eqb a a = true.
Proof. now apply value_eqb_eq. Qed.

Lemma eq_match_num (n : number) (x : value) :
  eq_match (VNum n) x = true <-> x = VNum n.
Proof.
  simpl. destruct x; split; try congruence.
  - intros H. apply number_eqb_eq in H. now subst.
  - intros H. injection H as ->. now apply number_eqb_eq.
Qed.

Lemma eq_match_str (s : string) (x : value) :
  eq_match (VStr s) x = true <-> x = VStr s.
Proof.
  simpl. destruct x; split; try congruence.
  - intros H. apply String.eqb_eq in H. now subst.
  - intros H. injection H as ->. apply String.eqb_refl.
Qed.

(** On fields that are there, the equality match is equality. *)
Lemma eq_match_present (q x : value) :
  q <> VUndefined -> x <> VUndefined -> (eq_match q x = true <-> q = x).
Proof.
  intros Hq Hx.
  destruct q; try congruence; try (unfold eq_match; apply value_eqb_eq).
  destruct x; simpl; split; congruence.
Qed.

Lemma present_iff (v : value) : present v = true <-> v <> VUndefined.
Proof. destruct v; simpl; split; congruence. Qed.

Lemma In_dedup (v : value) (l : list value) : In v (dedup l) <-> In v l.
Proof.
  induction l as [|x r IH]; simpl; [tauto|].
  rewrite filter_In, IH. split.
  - intros [H|[H _]]; auto.
  - intros [H|H]; auto.
    destruct (value_eqb x v) eqn:E.
    + left. now apply value_eqb_eq.
    + right. split; [assumption | reflexivity].
Qed.

(** [distinct] yields the values some document carries in the field. *)
Lemma In_distinct_values (k : string) (docs : list doc) (v : value) :
  In v (distinct_values k docs) <->
  v <> VUndefined /\ exists d, In d docs /\ get d k = v.
Proof.
  unfold distinct_values. rewrite In_dedup, filter_In, in_map_iff, present_iff.
  split.
  - intros [(d & Hg & Hd) Hv]. split; [assumption|]. now exists d.
  - intros [Hv (d & Hd & Hg)]. split; [|assumption]. now exists d.
Qed.

Lemma distinct_values_present (k : string) (docs : list doc) (v : value) :
  In v (distinct_values k docs) -> v <> VUndefined.
Proof. intros H. now apply In_distinct_values in H. Qed.

(** ** How each handler runs, case by case over what the store answers *)

Section Runs.

Variable db : Database.
Variable req : request.

Ltac run h := unfold h, try_catch, bind, await_distinct, await_find,
  await_findOne, console, json, ret.


Lemma order_headers_no_numbers :
  distinct db "Labels" "OrderNr" = Ok [] ->
  order_headers req db =
    (Ok {| status := 404; body := ErrorBody "No valid orders found." |},
     [Distinct "Labels" "OrderNr";
      Console "warn" "[WARN] No valid orders found in Labels."]).
Proof. intros H. run order_headers. now rewrite H. Qed.


Lemma order_headers_no_orders (vs : list value) :
  distinct db "Labels" "OrderNr" = Ok vs -> vs <> [] ->
  find db "OrderHeaders" (headers_query vs) = Ok [] ->
  order_headers req db =
    (Ok {| status := 404; body := ErrorBody "No matching orders found." |},
     [Distinct "Labels" "OrderNr"; Find "OrderHeaders" (headers_query vs);
      Console "warn" "[WARN] No matching orders found in OrderHeaders."]).
Proof.
  intros H Hvs Hf. run order_headers. rewrite H.
  destruct vs as [|v vs']; [congruence|]. simpl.
  unfold headers_query in Hf. now rewrite Hf.
Qed.

Lemma order_headers_found (vs : list value) (orders : list doc) :
  distinct db "Labels" "OrderNr" = Ok vs -> vs <> [] ->
  find db "OrderHeaders" (headers_query vs) = Ok orders -> orders <> [] ->
  order_headers req db =
    (Ok {| status := 200; body := DocArray orders |},
     [Distinct "Labels" "OrderNr"; Find "OrderHeaders" (headers_query vs)]).
Proof.
  intros H Hvs Hf Ho. run order_headers. rewrite H.
  destruct vs as [|v vs']; [congruence|]. simpl.
  unfold headers_query in Hf. rewrite Hf.
  destruct orders as [|o os]; [congruence|]. reflexivity.
Qed.

Lemma order_details_not_a_number :
  parseInt (orderNr_param req) = NaN ->
  order_details req db =
    (Ok {| status := 400; body := ErrorBody "OrderNr must be a valid number." |},
     []).
Proof. unfold orderNr_param. intros H. run order_details. now rewrite H. Qed.


Lemma order_details_no_labels (n : Z) :
  parseInt (orderNr_param req) = Int n ->
  find db "Labels" (labels_of_order n) = Ok [] ->
  order_details req db =
    (Ok {| status := 404;
           body := ErrorBody ("No valid labels found for OrderNr: "
                              ++ Number_toString (Int n)) |},
     [Find "Labels" (labels_of_order n)]).
Proof.
  unfold orderNr_param, labels_of_order. intros H Hf.
  run order_details. rewrite H. simpl. now rewrite Hf.
Qed.

Lemma order_details_found (n : Z) (ls : list doc) :
  parseInt (orderNr_param req) = Int n ->
  find db "Labels" (labels_of_order n) = Ok ls -> ls <> [] ->
  order_details req db =
    (Ok {| status := 200;
           body := OrderDetails (Int n)
                     (or_else (first_PlantDate ls) VNull)
                     (map (detail_of (Int n)) ls) |},
     [Find "Labels" (labels_of_order n)]).
Proof.
  unfold orderNr_param, labels_of_order. intros H Hf Hls.
  run order_details. rewrite H. simpl. rewrite Hf.
  destruct ls as [|l ls']; [congruence|]. reflexivity.
Qed.


Lemma order_details_number_no_labels (x : number) :
  parseInt (orderNr_param req) = x -> isNaN x = false ->
  find db "Labels" (labels_of_number x) = Ok [] ->
  order_details req db =
    (Ok {| status := 404;
           body := ErrorBody ("No valid labels found for OrderNr: "
                              ++ Number_toString x) |},
     [Find "Labels" (labels_of_number x)]).
Proof.
  unfold orderNr_param, labels_of_number. intros H Hx Hf.
  run order_details. rewrite H, Hx. simpl. now rewrite Hf.
Qed.

Lemma order_details_number_found (x : number) (ls : list doc) :
  parseInt (orderNr_param req) = x -> isNaN x = false ->
  find db "Labels" (labels_of_number x) = Ok ls -> ls <> [] ->
  order_details req db =
    (Ok {| status := 200;
           body := OrderDetails x (or_else (first_PlantDate ls) VNull)
                     (map (detail_of x) ls) |},
     [Find "Labels" (labels_of_number x)]).
Proof.
  unfold orderNr_param, labels_of_number. intros H Hx Hf Hls.
  run order_details. rewrite H, Hx. simpl. rewrite Hf.
  destruct ls as [|l ls']; [congruence|]. reflexivity.
Qed.

Lemma labels_no_barcode :
  truthy (barcodeId_param req) = false ->
  labels req db =
    (Ok {| status := 400; body := ErrorBody "Barcode ID is required." |}, []).
Proof. unfold barcodeId_param. intros H. run labels. now rewrite H. Qed.


Lemma labels_not_found :
  truthy (barcodeId_param req) = true ->
  findOne db "Labels" (label_by_barcode req) = Ok None ->
  labels req db =
    (Ok {| status := 404;
           body := ErrorBody ("Label not found for ID: "
                              ++ ToString (barcodeId_param req)) |},
     [searching req; FindOne "Labels" (label_by_barcode req);
      Console "warn"
        ("[WARN] Label not found for ID: " ++ ToString (barcodeId_param req))]).
Proof.
  unfold searching, label_by_barcode, barcodeId_param. intros H Hf.
  run labels. rewrite H. simpl. now rewrite Hf.
Qed.

Lemma labels_found (label : doc) :
  truthy (barcodeId_param req) = true ->
  findOne db "Labels" (label_by_barcode req) = Ok (Some label) ->
  labels req db =
    (Ok {| status := 200; body := Document label |},
     [searching req; FindOne "Labels" (label_by_barcode req)]).
Proof.
  unfold searching, label_by_barcode, barcodeId_param. intros H Hf.
  run labels. rewrite H. simpl. now rewrite Hf.
Qed.

(** Every run of a handler is one of its cases. *)
Lemma order_headers_cases : order_headers_run db (order_headers req db).
Proof.
  run order_headers.
  destruct (distinct db "Labels" "OrderNr") as [[|v vs]|e|] eqn:Hd.
  - now constructor.
  - cbn [List.length Nat.eqb].
    change (FIn "OrderNr" (v :: vs)) with (headers_query (v :: vs)).
    destruct (find db "OrderHeaders" (headers_query (v :: vs)))
      as [[|o os]|e|] eqn:Hf.
    + apply (listing_no_orders db (v :: vs)); auto; discriminate.
    + apply (listing_found db (v :: vs) (o :: os)); auto; discriminate.
    + apply (listing_find_rejects db (v :: vs) e); auto; discriminate.
    + apply (listing_find_stalls db (v :: vs)); auto; discriminate.
  - now constructor.
  - now constructor.
Qed.

Lemma order_details_cases : order_details_run db req (order_details req db).
Proof.
  run order_details. fold (orderNr_param req).
  destruct (parseInt (orderNr_param req)) as [|n|b] eqn:Hp.
  - now constructor.
  - cbn [isNaN]. change (FEq "OrderNr" (VNum (Int n)))
      with (labels_of_number (Int n)).
    destruct (find db "Labels" (labels_of_number (Int n)))
      as [[|l ls]|e|] eqn:Hf.
    + now apply (details_no_labels db req (Int n)).
    + apply (details_found db req (Int n) (l :: ls)); auto; discriminate.
    + now apply (details_find_rejects db req (Int n) e).
    + now apply (details_find_stalls db req (Int n)).
  - cbn [isNaN]. change (FEq "OrderNr" (VNum (Inf b)))
      with (labels_of_number (Inf b)).
    destruct (find db "Labels" (labels_of_number (Inf b)))
      as [[|l ls]|e|] eqn:Hf.
    + now apply (details_no_labels db req (Inf b)).
    + apply (details_found db req (Inf b) (l :: ls)); auto; discriminate.
    + now apply (details_find_rejects db req (Inf b) e).
    + now apply (details_find_stalls db req (Inf b)).
Qed.

Lemma labels_cases : labels_run db req (labels req db).
Proof.
  run labels. fold (barcodeId_param req).
  destruct (truthy (barcodeId_param req)) eqn:Ht; cbn [negb].
  - change (FEq "barcodeId" (barcodeId_param req)) with (label_by_barcode req).
    destruct (findOne db "Labels" (label_by_barcode req)) as [[l|]|e|] eqn:Hf.
    + now apply (lookup_found db req l).
    + now apply (lookup_not_found db req).
    + now apply (lookup_rejects db req e).
    + now apply (lookup_stalls db req).
  - now constructor.
Qed.

End Runs.

(** ** Facts about doubles *)

Lemma round_to_double_not_NaN (z : Z) : round_to_double z <> NaN.
Proof.
  unfold round_to_double.
  destruct (Z.log2 (Z.abs z) - 52 <=? 0); [discriminate|].
  cbv zeta. destruct (2 ^ 1024 <=? _); discriminate.
Qed.

(** An integer below 2^53 in magnitude is a double. *)
Lemma round_to_double_small (z : Z) :
  Z.abs z < 2 ^ 53 -> round_to_double z = Int z.
Proof.
  intros H. unfold round_to_double.
  destruct (Z.log2 (Z.abs z) - 52 <=? 0) eqn:E; [reflexivity|].
  apply Z.leb_gt in E.
  destruct (Z.eq_dec (Z.abs z) 0) as [H0|H0].
  - rewrite H0 in E. simpl in E. lia.
  - assert (Hpos : 0 < Z.abs z) by lia.
    apply (Z.log2_lt_pow2 _ 53 Hpos) in H. lia.
Qed.

(** ** Facts about [parseInt] *)

Lemma span_digits_nil (s : string) :
  fst (span_digits s) = [] <-> starts_with_digit s = false.
Proof.
  destruct s as [|c r]; simpl; [tauto|].
  destruct (is_digit c); [|tauto].
  destruct (span_digits r). simpl. split; discriminate.
Qed.

Lemma is_digit_not_sign (c : ascii) :
  is_digit c = true -> Ascii.eqb c "-" || Ascii.eqb c "+" = false.
Proof.
  destruct c as [[] [] [] [] [] [] [] []]; simpl; intros H;
    try discriminate; reflexivity.
Qed.

Lemma parseInt10_NaN_iff (s : string) :
  parseInt10 s = NaN <-> starts_with_integer s = false.
Proof.
  unfold parseInt10, starts_with_integer.
  destruct (trim_start s) as [|c r].
  - simpl. tauto.
  - destruct (Ascii.eqb c "-" || Ascii.eqb c "+") eqn:Hs.
    + rewrite <- span_digits_nil.
      destruct (fst (span_digits r)); split; try congruence.
      intros H. now apply round_to_double_not_NaN in H.
    + change (is_digit c) with (starts_with_digit (String c r)).
      rewrite <- span_digits_nil.
      destruct (fst (span_digits (String c r))); split; try congruence.
      intros H. now apply round_to_double_not_NaN in H.
Qed.

Lemma trim_start_digit (c : ascii) (r : string) :
  is_digit c = true -> trim_start (String c r) = String c r.
Proof.
  destruct c as [[] [] [] [] [] [] [] []]; simpl; intros H;
    try discriminate; reflexivity.
Qed.

Lemma span_digits_app (ds : list ascii) (rest : string) :
  Forall (fun c => is_digit c = true) ds ->
  starts_with_digit rest = false ->
  span_digits (string_of_list_ascii ds ++ rest) = (ds, rest).
Proof.
  intros Hds Hrest. induction Hds as [|c ds Hc _ IH]; simpl.
  - destruct rest as [|d r]; [reflexivity|].
    simpl in Hrest. simpl. now rewrite Hrest.
  - now rewrite Hc, IH.
Qed.

(** A sign, digits, then something that is not a digit: [parseInt] reads
    the digits and stops. *)
Lemma parseInt10_prefix (sg : sign) (ds : list ascii) (rest : string) :
  ds <> [] ->
  Forall (fun c => is_digit c = true) ds ->
  starts_with_digit rest = false ->
  parseInt10 (sign_text sg ++ string_of_list_ascii ds ++ rest)
  = round_to_double (sign_factor sg * digits_value ds).
Proof.
  intros Hne Hds Hrest.
  destruct ds as [|d ds']; [congruence|].
  assert (Hd : is_digit d = true) by now inversion Hds.
  pose proof (span_digits_app _ _ Hds Hrest) as Hspan.
  unfold parseInt10.
  destruct sg; simpl sign_text; simpl sign_factor.
  - change ("" ++ ?x) with x.
    change (string_of_list_ascii (d :: ds') ++ rest)
      with (String d (string_of_list_ascii ds' ++ rest)) in *.
    rewrite (trim_start_digit _ _ Hd).
    rewrite (is_digit_not_sign _ Hd).
    assert (Ascii.eqb d "-" = false) as ->.
    { pose proof (is_digit_not_sign _ Hd) as H.
      now apply orb_false_iff in H. }
    now rewrite Hspan.
  - change ("+" ++ ?x) with (String "+" x).
    change (trim_start (String "+" ?x)) with (String "+" x).
    cbv beta iota zeta. change (Ascii.eqb "+" "-") with false.
    change (false || Ascii.eqb "+" "+") with true. cbv iota.
    now rewrite Hspan.
  - change ("-" ++ ?x) with (String "-" x).
    change (trim_start (String "-" ?x)) with (String "-" x).
    cbv beta iota zeta. change (Ascii.eqb "-" "-") with true.
    cbv iota. change (true || Ascii.eqb "-" "+") with true. cbv iota.
    now rewrite Hspan.
Qed.

(** *** Printing an integer and reading it back *)

Lemma span_digits_uint (d : Decimal.uint) :
  span_digits (NilEmpty.string_of_uint d)
  = (list_ascii_of_string (NilEmpty.string_of_uint d), "").
Proof.
  induction d; simpl; try rewrite IHd; reflexivity.
Qed.

Lemma digits_uint (d : Decimal.uint) (acc : Z) :
  fold_left (fun a c => 10 * a + digit_value c)
    (list_ascii_of_string (NilEmpty.string_of_uint d)) acc
  = uint_value d acc.
Proof.
  revert acc. induction d; intros acc; simpl; try apply IHd; reflexivity.
Qed.

Lemma uint_value_acc (d : Decimal.uint) (acc : positive) :
  Z.pos (Pos.of_uint_acc d acc) = uint_value d (Z.pos acc).
Proof.
  revert acc. induction d; intros acc; cbn [Pos.of_uint_acc uint_value];
    try rewrite IHd; try reflexivity; f_equal; lia.
Qed.

Lemma uint_value_of_uint (d : Decimal.uint) :
  uint_value d 0 = Z.of_N (Pos.of_uint d).
Proof.
  induction d; simpl; try reflexivity; try assumption;
    rewrite uint_value_acc; reflexivity.
Qed.

Lemma uint_value_to_uint (p : positive) : uint_value (Pos.to_uint p) 0 = Z.pos p.
Proof. rewrite uint_value_of_uint, Unsigned.of_to. reflexivity. Qed.

Lemma string_of_uint_digit (d : Decimal.uint) :
  d <> Nil ->
  exists c r, NilEmpty.string_of_uint d = String c r /\ is_digit c = true.
Proof.
  destruct d; intros H; try congruence; simpl; eexists _, _; split; reflexivity.
Qed.

Lemma parseInt10_uint (d : Decimal.uint) :
  d <> Nil ->
  parseInt10 (NilEmpty.string_of_uint d)
  = round_to_double (uint_value d 0) /\
  parseInt10 (String "-" (NilEmpty.string_of_uint d))
  = round_to_double (- uint_value d 0).
Proof.
  intros Hd. destruct (string_of_uint_digit d Hd) as (c & r & Hcr & Hc).
  assert (Hne : list_ascii_of_string (NilEmpty.string_of_uint d) <> [])
    by (rewrite Hcr; discriminate).
  pose proof (is_digit_not_sign _ Hc) as Hsign.
  assert (Hminus : Ascii.eqb c "-" = false) by now apply orb_false_iff in Hsign.
  unfold parseInt10. split.
  - rewrite Hcr, (trim_start_digit _ _ Hc), Hsign, Hminus, <- Hcr.
    rewrite span_digits_uint. simpl fst.
    destruct (list_ascii_of_string (NilEmpty.string_of_uint d)) eqn:El;
      [congruence|].
    rewrite <- El. unfold digits_value. rewrite digits_uint. f_equal; lia.
  - change (trim_start (String "-" ?x)) with (String "-" x).
    cbv beta iota zeta. change (Ascii.eqb "-" "-") with true. cbv iota.
    change (true || Ascii.eqb "-" "+") with true. cbv iota.
    rewrite span_digits_uint. simpl fst.
    destruct (list_ascii_of_string (NilEmpty.string_of_uint d)) eqn:El;
      [congruence|].
    rewrite <- El. unfold digits_value. rewrite digits_uint. f_equal; lia.
Qed.

(** All the digits of an integer read back as the double nearest to it. *)
Lemma parseInt10_decimal (z : Z) : parseInt10 (decimal z) = round_to_double z.
Proof.
  destruct z as [|p|p]; [reflexivity| |];
    pose proof (Unsigned.to_uint_nonnil p) as Hnn;
    destruct (parseInt10_uint _ Hnn) as [Hpos Hneg];
    rewrite uint_value_to_uint in *;
    unfold decimal, Z.to_int, NilZero.string_of_int, NilZero.string_of_uint;
    destruct (Pos.to_uint p); try congruence; assumption.
Qed.

Lemma Number_toString_small (z : Z) :
  Z.abs z < 2 ^ 53 -> Number_toString (Int z) = decimal z.
Proof.
  intros H. unfold Number_toString.
  apply Z.ltb_lt in H. now rewrite H.
Qed.


(** ** The store in memory behind the handlers *)

Lemma value_eqb_sym (a b : value) : value_eqb a b = value_eqb b a.
Proof.
  destruct (value_eqb b a) eqn:E.
  - apply value_eqb_eq in E. subst. apply value_eqb_refl.
  - destruct (value_eqb a b) eqn:E'; [|reflexivity].
    apply value_eqb_eq in E'. subst. now rewrite value_eqb_refl in E.
Qed.

Lemma In_arrange (st : Store) (d : doc) (l : list doc) :
  In d (arrange st l) <-> In d l.
Proof.
  split; apply Permutation_in.
  - apply arrange_perm.
  - apply Permutation_sym, arrange_perm.
Qed.

Lemma arrange_nil (st : Store) (l : list doc) : arrange st l = [] <-> l = [].
Proof.
  split; intros H.
  - apply Permutation_nil. rewrite <- H. apply arrange_perm.
  - subst l. apply Permutation_nil, Permutation_sym, arrange_perm.
Qed.

Lemma mem_find_labels (st : Store) (n : Z) :
  find (mem_db st) "Labels" (labels_of_order n) = Ok (labels_with_OrderNr n st).
Proof.
  simpl. unfold found_docs, labels_with_OrderNr, collection. simpl.
  do 2 f_equal.
  apply filter_ext. intros l. apply (value_eqb_sym (VNum (Int n))).
Qed.

Lemma In_labels_with_OrderNr (st : Store) (n : Z) (l : doc) :
  In l (labels_with_OrderNr n st) <->
  In l (Labels st) /\ get l "OrderNr" = VNum (Int n).
Proof.
  unfold labels_with_OrderNr.
  rewrite In_arrange, filter_In, value_eqb_eq. tauto.
Qed.

Lemma labels_with_OrderNr_nil (st : Store) (n : Z) :
  labels_with_OrderNr n st = [] <->
  forall l, In l (Labels st) -> get l "OrderNr" <> VNum (Int n).
Proof.
  split.
  - intros H l Hl Hg.
    assert (Hin : In l (labels_with_OrderNr n st))
      by now apply In_labels_with_OrderNr.
    rewrite H in Hin. contradiction.
  - intros H. destruct (labels_with_OrderNr n st) as [|l ls] eqn:E;
      [reflexivity|].
    assert (Hin : In l (labels_with_OrderNr n st)) by (rewrite E; now left).
    apply In_labels_with_OrderNr in Hin. destruct Hin as [Hl Hg].
    now destruct (H l Hl).
Qed.

(** A header that carries an [OrderNr] matches the [$in] filter exactly
    when some label carries the same [OrderNr]. *)
Lemma header_matches (st : Store) (h : doc) :
  get h "OrderNr" <> VUndefined ->
  matches (headers_query (distinct_values "OrderNr" (Labels st))) h = true <->
  exists l, In l (Labels st) /\ get l "OrderNr" = get h "OrderNr".
Proof.
  intros Hh. simpl. rewrite existsb_exists. split.
  - intros (q & Hq & Hm).
    pose proof (distinct_values_present _ _ _ Hq) as Hp.
    apply (eq_match_present q _ Hp Hh) in Hm. subst q.
    apply In_distinct_values in Hq. now destruct Hq as [_ Hl].
  - intros (l & Hl & Hg). exists (get h "OrderNr"). split.
    + apply In_distinct_values. split; [assumption|]. now exists l.
    + now apply eq_match_present.
Qed.

Lemma mem_distinct (st : Store) :
  distinct (mem_db st) "Labels" "OrderNr"
  = Ok (distinct_values "OrderNr" (Labels st)).
Proof. reflexivity. Qed.

Lemma mem_find_headers (st : Store) (vs : list value) :
  find (mem_db st) "OrderHeaders" (headers_query vs)
  = Ok (found_docs st "OrderHeaders" (headers_query vs)).
Proof. reflexivity. Qed.

Lemma In_found_headers (st : Store) (f : filter) (h : doc) :
  In h (found_docs st "OrderHeaders" f) <->
  In h (OrderHeaders st) /\ matches f h = true.
Proof.
  unfold found_docs. rewrite In_arrange, filter_In. reflexivity.
Qed.

Lemma In_found_labels (st : Store) (f : filter) (l : doc) :
  In l (found_docs st "Labels" f) <->
  In l (Labels st) /\ matches f l = true.
Proof.
  unfold found_docs. rewrite In_arrange, filter_In. reflexivity.
Qed.

(** A listing that is a success, or carries an array, came from a
    non-empty answer to both queries. *)
Lemma order_headers_success (db : Database) (req : request) (r : response) :
  responds (order_headers req) db r ->
  status r = 200 \/ (exists os, body r = DocArray os) ->
  exists vs orders,
    distinct db "Labels" "OrderNr" = Ok vs /\ vs <> [] /\
    find db "OrderHeaders" (headers_query vs) = Ok orders /\ orders <> [] /\
    r = {| status := 200; body := DocArray orders |}.
Proof.
  unfold responds. intros Hr Hs.
  pose proof (order_headers_cases db req) as Hc.
  inversion Hc as [e Hd Heq| Hd Heq| Hd Heq| vs e Hd Hvs Hf Heq
                  | vs Hd Hvs Hf Heq| vs Hd Hvs Hf Heq
                  | vs orders Hd Hvs Hf Ho Heq];
    rewrite <- Heq in Hr; cbn [fst] in Hr; try discriminate Hr;
    injection Hr as <-; cbn [status body] in Hs;
    try (destruct Hs as [Hs|[os Hs]]; discriminate).
  now exists vs, orders.
Qed.

(** An order detail that is a success, or carries details, came from a
    parameter that is a number and a non-empty answer to the query. *)
Lemma order_details_success (db : Database) (req : request) (r : response) :
  responds (order_details req) db r ->
  status r = 200 \/ (exists o pd ds, body r = OrderDetails o pd ds) ->
  exists x ls,
    parseInt (orderNr_param req) = x /\ isNaN x = false /\
    find db "Labels" (labels_of_number x) = Ok ls /\ ls <> [] /\
    r = {| status := 200;
           body := OrderDetails x (or_else (first_PlantDate ls) VNull)
                     (map (detail_of x) ls) |}.
Proof.
  unfold responds. intros Hr Hs.
  pose proof (order_details_cases db req) as Hc.
  inversion Hc as [Hp Heq| x e Hp Hx Hf Heq| x Hp Hx Hf Heq| x Hp Hx Hf Heq
                  | x ls Hp Hx Hf Hls Heq];
    rewrite <- Heq in Hr; cbn [fst] in Hr; try discriminate Hr;
    injection Hr as <-; cbn [status body] in Hs;
    try (destruct Hs as [Hs|(o & pd & ds & Hs)]; discriminate).
  now exists x, ls.
Qed.

(** ** The order listing *)

(** C1.  The listing returns the order headers whose [OrderNr] some label
    carries.  For a header [h] that has an [OrderNr]: if [h] is stored and
    a label carries its [OrderNr], the response is 200 and its array holds
    [h]; if no label carries its [OrderNr], no response array holds [h];
    and whatever the array holds is a stored header. *)
Theorem C1_listing_exactly_labelled_orders
    (st : Store) (req : request) (h : doc) :
  get h "OrderNr" <> VUndefined ->
  (In h (OrderHeaders st) ->
   (exists l, In l (Labels st) /\ get l "OrderNr" = get h "OrderNr") ->
   exists orders,
     responds (order_headers req) (mem_db st)
       {| status := 200; body := DocArray orders |} /\
     In h orders)
  /\
  ((forall l, In l (Labels st) -> get l "OrderNr" <> get h "OrderNr") ->
   forall r orders,
     responds (order_headers req) (mem_db st) r ->
     body r = DocArray orders -> ~ In h orders)
  /\
  (forall r orders,
     responds (order_headers req) (mem_db st) r ->
     body r = DocArray orders -> In h orders -> In h (OrderHeaders st)).
Proof.
  intros Hh.
  set (vs := distinct_values "OrderNr" (Labels st)).
  set (found := found_docs st "OrderHeaders" (headers_query vs)).
  assert (Hin : In h found <->
                In h (OrderHeaders st) /\
                exists l, In l (Labels st) /\ get l "OrderNr" = get h "OrderNr").
  { unfold found. rewrite In_found_headers. unfold vs.
    now rewrite (header_matches st h Hh). }
  assert (Harr : forall r orders,
             responds (order_headers req) (mem_db st) r ->
             body r = DocArray orders -> orders = found).
  { intros r orders Hr Hb.
    destruct (order_headers_success _ _ _ Hr (or_intror (ex_intro _ _ Hb)))
      as (vs' & os & Hd & _ & Hf & _ & ->).
    rewrite mem_distinct in Hd. injection Hd as <-.
    rewrite mem_find_headers in Hf. injection Hf as <-.
    simpl in Hb. now injection Hb as <-. }
  split; [|split].
  - intros Hst Hl.
    assert (Hf : In h found) by (apply Hin; now split).
    exists found. split; [|assumption].
    unfold responds.
    rewrite (order_headers_found (mem_db st) req vs found).
    + reflexivity.
    + apply mem_distinct.
    + destruct Hl as (l & Hl & Hg). intros Hvs.
      assert (Hv : In (get h "OrderNr") vs).
      { apply In_distinct_values. split; [assumption|]. now exists l. }
      rewrite Hvs in Hv. contradiction.
    + apply mem_find_headers.
    + intros Hnil. rewrite Hnil in Hf. contradiction.
  - intros Hno r orders Hr Hb Ho.
    rewrite (Harr r orders Hr Hb) in Ho. apply Hin in Ho.
    destruct Ho as [_ (l & Hl & Hg)]. now apply (Hno l).
  - intros r orders Hr Hb Ho.
    rewrite (Harr r orders Hr Hb) in Ho. now apply Hin in Ho.
Qed.

(** C5.  On the listing, an empty answer to the distinct [OrderNr] query
    gives 404 "No valid orders found." and not an empty array; a non-empty
    answer followed by no matching header gives 404 as well, with another
    message. *)
Theorem C5_listing_empty_results (db : Database) (req : request) :
  (distinct db "Labels" "OrderNr" = Ok [] ->
   responds (order_headers req) db
     {| status := 404; body := ErrorBody "No valid orders found." |})
  /\
  (forall vs,
     distinct db "Labels" "OrderNr" = Ok vs -> vs <> [] ->
     find db "OrderHeaders" (headers_query vs) = Ok [] ->
     responds (order_headers req) db
       {| status := 404; body := ErrorBody "No matching orders found." |})
  /\
  "No valid orders found." <> "No matching orders found.".
Proof.
  unfold responds. split; [|split].
  - intros Hd. now rewrite (order_headers_no_numbers db req Hd).
  - intros vs Hd Hvs Hf. now rewrite (order_headers_no_orders db req vs Hd Hvs Hf).
  - discriminate.
Qed.


(** ** The order detail *)

Lemma Forall2_map_of {A B} (R : A -> B -> Prop) (f : A -> B) (l : list A) :
  (forall a, R a (f a)) -> Forall2 R l (map f l).
Proof. intros H. induction l; simpl; constructor; auto. Qed.


Lemma or_else_falsy (v w : value) : truthy v = false -> or_else v w = w.
Proof. unfold or_else. now intros ->. Qed.



(** C3, as the code has it.  In a detail response the [BarcodeID] of an
    entry is the label's own [barcodeId] when that is truthy (there and
    neither empty nor otherwise falsy), and otherwise the order number, a
    hyphen and the label's item number; a label with [OrderNr] 7,
    [ItemNumber] ["X1"] and no [barcodeId] gets ["7-X1"]. *)
Theorem C3_barcode_own_or_synthesized :
  (forall (db : Database) (req : request) (n : Z) (ls : list doc),
     parseInt (orderNr_param req) = Int n ->
     find db "Labels" (labels_of_order n) = Ok ls -> ls <> [] ->
     exists pd ds,
       responds (order_details req) db
         {| status := 200; body := OrderDetails (Int n) pd ds |} /\
       Forall2 (barcode_rule n) ls ds)
  /\
  (exists pd e,
     responds (order_details (request_with "orderNr" "7"))
       (mem_db store_no_headers)
       {| status := 200; body := OrderDetails (Int 7) pd [e] |} /\
     get label_7_X1 "barcodeId" = VUndefined /\
     BarcodeID e = VStr "7-X1").
Proof.
  split.
  - intros db req n ls Hp Hf Hls. eexists _, _. split.
    + unfold responds. now rewrite (order_details_found db req n ls Hp Hf Hls).
    + apply Forall2_map_of. intros l. reflexivity.
  - eexists _, _. repeat split; reflexivity.
Qed.

(** C8.  In a detail response a field that is there but falsy counts as
    not there: such a [SmallText] or [UOM] (the empty string, 0) is
    reported [null], such a [PlantDate] of the first label is reported
    [null], and such a [barcodeId] (the empty string) gives way to the
    made-up [BarcodeID]. *)
Theorem C8_falsy_fields_count_as_absent :
  (forall (db : Database) (req : request) (n : Z) (first : doc)
          (rest : list doc),
     parseInt (orderNr_param req) = Int n ->
     find db "Labels" (labels_of_order n) = Ok (first :: rest) ->
     exists pd ds,
       responds (order_details req) db
         {| status := 200; body := OrderDetails (Int n) pd ds |} /\
       (present_but_falsy (get first "PlantDate") -> pd = VNull) /\
       Forall2 (falsy_rule n) (first :: rest) ds)
  /\
  present_but_falsy (VStr "") /\ present_but_falsy (VNum (Int 0)).
Proof.
  split; [|split].
  - intros db req n first rest Hp Hf. eexists _, _. split; [|split].
    + unfold responds.
      now rewrite (order_details_found db req n _ Hp Hf ltac:(discriminate)).
    + intros [_ Hfalsy]. now apply or_else_falsy.
    + apply Forall2_map_of. intros l. unfold falsy_rule, detail_of. simpl.
      repeat split; intros [_ Hfalsy]; now apply or_else_falsy.
  - split; [discriminate | reflexivity].
  - split; [discriminate | reflexivity].
Qed.

(** C4, as the code has it.  A parameter that does not start, after its
    leading white space and an optional sign, with a decimal digit (such
    as ["abc"]) is answered 400 "OrderNr must be a valid number.", with no
    store call and no other effect, whatever the store is. *)
Theorem C4_no_leading_integer_is_400 (db : Database) (req : request) :
  starts_with_integer (ToString (orderNr_param req)) = false ->
  order_details req db =
    (Ok {| status := 400; body := ErrorBody "OrderNr must be a valid number." |},
     []).
Proof.
  intros H. apply order_details_not_a_number.
  unfold parseInt. now apply parseInt10_NaN_iff.
Qed.

Lemma isNaN_round_to_double (z : Z) : isNaN (round_to_double z) = false.
Proof.
  pose proof (round_to_double_not_NaN z) as H.
  destruct (round_to_double z); [congruence | reflexivity | reflexivity].
Qed.


(** ** The label lookup *)

Lemma truthy_str (id : string) : truthy (VStr id) = true <-> id <> "".
Proof.
  simpl. rewrite negb_true_iff. split.
  - intros H ->. discriminate.
  - intros H. destruct (String.eqb id "") eqn:E; [|reflexivity].
    now apply String.eqb_eq in E.
Qed.

Lemma match_param_nonempty (lit path seg : string) :
  match_param lit path = Some seg -> seg <> "".
Proof.
  unfold match_param. destruct (strip_prefix_ci lit path) as [rest|]; [|discriminate].
  destruct (negb (String.eqb (chop_slash rest) "") && no_slash (chop_slash rest))
    eqn:E; [|discriminate].
  intros [= <-] H. rewrite H in E. discriminate.
Qed.

Lemma unescape_nonempty (s : string) (l : list octet) :
  unescape s = Some l -> s <> "" -> l <> [].
Proof.
  destruct s as [|c r]; [congruence|]. simpl. intros H _.
  destruct (Ascii.eqb c "%").
  - destruct r as [|h [|d r2]]; try discriminate.
    destruct (hex h), (hex d); try discriminate.
    destruct (unescape r2); simpl in H; [|discriminate].
    injection H as <-. discriminate.
  - destruct (unescape r); simpl in H; [|discriminate].
    injection H as <-. discriminate.
Qed.

Lemma utf8_nonempty (l : list octet) (cs : list ascii) :
  utf8 l = Some cs -> l <> [] -> cs <> [].
Proof.
  destruct l as [|o r]; [congruence|]. intros H _. simpl in H.
  unfold option_map in H.
  repeat match type of H with
         | context [if ?b then _ else _] => destruct b
         | context [match ?x with _ => _ end] => destruct x
         end; try discriminate; injection H as <-; discriminate.
Qed.

Lemma decodeURIComponent_nonempty (raw v : string) :
  decodeURIComponent raw = Some v -> raw <> "" -> v <> "".
Proof.
  unfold decodeURIComponent. intros H Hraw.
  destruct (unescape raw) as [l|] eqn:El; [|discriminate].
  destruct (utf8 l) as [cs|] eqn:Ec; [|discriminate].
  simpl in H. injection H as <-.
  pose proof (utf8_nonempty l cs Ec (unescape_nonempty raw l El Hraw)) as Hcs.
  destruct cs; [congruence | discriminate].
Qed.

Lemma hd_error_some {A} (l : list A) (x : A) : hd_error l = Some x -> In x l.
Proof. destruct l; simpl; [discriminate|]. intros [= ->]. now left. Qed.

Lemma hd_error_none {A} (l : list A) : hd_error l = None -> l = [].
Proof. destruct l; simpl; [reflexivity | discriminate]. Qed.

Lemma mem_findOne_barcode (st : Store) (req : request) :
  findOne (mem_db st) "Labels" (label_by_barcode req)
  = Ok (hd_error (found_docs st "Labels" (label_by_barcode req))).
Proof. reflexivity. Qed.

Lemma matches_barcode (req : request) (id : string) (l : doc) :
  barcodeId_param req = VStr id ->
  matches (label_by_barcode req) l = true <-> get l "barcodeId" = VStr id.
Proof.
  intros H. unfold label_by_barcode. rewrite H. apply eq_match_str.
Qed.

(** C6.  The label handler answers 400 without a store call when the
    barcode parameter is missing or empty: this is the guard the code has.
    A request for [/labels/] does not get that answer: the route needs a
    non-empty identifier, the handler is not called, and the fallback
    answers 404 "Route not found.".  For a non-empty barcode that no label
    has, the response is 404 and names the identifier; for one that a
    label has, it is 200 with a stored label of that barcode, unchanged,
    which is the label itself when it is the only one. *)
Theorem C6_label_lookup :
  (forall (db : Database) (req : request),
     barcodeId_param req = VUndefined \/ barcodeId_param req = VStr "" ->
     labels req db =
       (Ok {| status := 400; body := ErrorBody "Barcode ID is required." |}, []))
  /\
  (forall db : Database,
     app_get "/labels/" db =
       (Ok {| status := 404; body := ErrorBody "Route not found." |}, []))
  /\
  (forall (st : Store) (req : request) (id : string),
     barcodeId_param req = VStr id -> id <> "" ->
     (forall l, In l (Labels st) -> get l "barcodeId" <> VStr id) ->
     responds (labels req) (mem_db st)
       {| status := 404; body := ErrorBody ("Label not found for ID: " ++ id) |})
  /\
  (forall (st : Store) (req : request) (id : string) (l : doc),
     barcodeId_param req = VStr id -> id <> "" ->
     In l (Labels st) -> get l "barcodeId" = VStr id ->
     exists found,
       responds (labels req) (mem_db st)
         {| status := 200; body := Document found |} /\
       In found (Labels st) /\ get found "barcodeId" = VStr id /\
       ((forall l', In l' (Labels st) -> get l' "barcodeId" = VStr id ->
                    l' = l) ->
        found = l)).
Proof.
  split; [|split; [|split]].
  - intros db req [H|H]; apply labels_no_barcode; now rewrite H.
  - intros db. reflexivity.
  - intros st req id Hb Hid Hno. unfold responds.
    assert (Ht : truthy (barcodeId_param req) = true)
      by (rewrite Hb; now apply truthy_str).
    rewrite (labels_not_found (mem_db st) req Ht).
    + now rewrite Hb.
    + rewrite mem_findOne_barcode.
      destruct (hd_error _) as [x|] eqn:E; [|reflexivity].
      apply hd_error_some, In_found_labels in E. destruct E as [Hx Hm].
      apply (matches_barcode req id x Hb) in Hm. now destruct (Hno x Hx).
  - intros st req id l Hb Hid Hl Hg.
    assert (Ht : truthy (barcodeId_param req) = true)
      by (rewrite Hb; now apply truthy_str).
    destruct (hd_error (found_docs st "Labels" (label_by_barcode req)))
      as [x|] eqn:E.
    + pose proof (proj1 (In_found_labels _ _ _) (hd_error_some _ _ E))
        as [Hx Hm].
      apply (matches_barcode req id x Hb) in Hm.
      exists x. unfold responds.
      rewrite (labels_found (mem_db st) req x Ht);
        [|now rewrite mem_findOne_barcode, E].
      repeat split; try assumption.
      intros Huniq. now apply Huniq.
    + apply hd_error_none in E.
      assert (Hin : In l (found_docs st "Labels" (label_by_barcode req))).
      { apply In_found_labels. split; [assumption|].
        now apply (matches_barcode req id l Hb). }
      rewrite E in Hin. contradiction.
Qed.

(** ** Store errors *)


(** ** The statements at concrete requests *)

Example parseInt_examples :
  parseInt (VStr "42") = Int 42 /\ parseInt (VStr "12abc") = Int 12 /\
  parseInt (VStr "3.9") = Int 3 /\ parseInt (VStr " -5") = Int (-5) /\
  parseInt (VStr "abc") = NaN /\ parseInt (VStr "") = NaN /\
  parseInt (VStr "-") = NaN /\ parseInt VUndefined = NaN.
Proof. repeat split; reflexivity. Qed.

Example Number_toString_examples :
  Number_toString (Int 42) = "42" /\ Number_toString (Int 0) = "0" /\
  Number_toString (Int (-7)) = "-7".
Proof. repeat split; reflexivity. Qed.

(** From 2^53 on [parseInt] gives the nearest double, and from 10^21 on
    a number prints with an exponent. *)
Example parseInt_large_examples :
  parseInt (VStr "9007199254740992") = Int 9007199254740992 /\
  parseInt (VStr "9007199254740993") = Int 9007199254740992 /\
  parseInt (VStr "9007199254740995") = Int 9007199254740996 /\
  parseInt (VStr "10000000000000000000000") = Int (10 ^ 22) /\
  round_to_double (10 ^ 309) = Inf false.
Proof. repeat split; vm_compute; reflexivity. Qed.

Example Number_toString_large_examples :
  Number_toString (Int (2 ^ 53)) = "9007199254740992" /\
  Number_toString (Int (2 ^ 63)) = "9223372036854776000" /\
  Number_toString (Int (- 2 ^ 64)) = "-18446744073709552000" /\
  Number_toString (Int (10 ^ 21)) = "1e+21" /\
  Number_toString (Int (10 ^ 22)) = "1e+22" /\
  Number_toString (Int (2 ^ 70)) = "1.1805916207174113e+21" /\
  Number_toString (Inf false) = "Infinity".
Proof. repeat split; vm_compute; reflexivity. Qed.

Example order_1e22_is_named_with_an_exponent :
  order_details (request_with "orderNr" "10000000000000000000000")
    (mem_db empty_store)
  = (Ok {| status := 404;
           body := ErrorBody "No valid labels found for OrderNr: 1e+22" |},
     [Find "Labels" (labels_of_order (10 ^ 22))]).
Proof. vm_compute. reflexivity. Qed.

(** A store call that never settles leaves the request open. *)
Example stalled_store_leaves_the_request_open :
  app_get "/order-headers" stalled_db = (Pending, [Distinct "Labels" "OrderNr"]) /\
  app_get "/labels/B123" stalled_db =
    (Pending,
     [Console "log" "[DEBUG] Searching for label with Barcode ID: B123";
      FindOne "Labels" (FEq "barcodeId" (VStr "B123"))]).
Proof. split; reflexivity. Qed.

(** A parameter that does not decode is answered by Express itself. *)
Example undecodable_parameter :
  app_get "/labels/%E0%A4%A" (mem_db store_7) =
    (Ok {| status := 400; body := ErrorPage |},
     [ConsoleStack "error" "URIError"]).
Proof. reflexivity. Qed.

Example routes_reach_the_handlers :
  app_get "/order-headers" (mem_db store_7) = order_headers no_params (mem_db store_7) /\
  app_get "/order-details/7" (mem_db store_7)
    = order_details (request_with "orderNr" "7") (mem_db store_7) /\
  app_get "/labels/B123" (mem_db store_7)
    = labels (request_with "barcodeId" "B123") (mem_db store_7) /\
  app_get "/foo/bar" (mem_db store_7) = fallback no_params (mem_db store_7).
Proof. repeat split; reflexivity. Qed.

Example label_B123_verbatim :
  app_get "/labels/B123" (mem_db store_7) =
    (Ok {| status := 200; body := Document label_7_B123 |},
     [Console "log" "[DEBUG] Searching for label with Barcode ID: B123";
      FindOne "Labels" (FEq "barcodeId" (VStr "B123"))]).
Proof. reflexivity. Qed.

Lemma C1_witness :
  get header_7 "OrderNr" <> VUndefined /\
  exists orders,
    responds (order_headers no_params) (mem_db store_7)
      {| status := 200; body := DocArray orders |} /\
    In header_7 orders.
Proof.
  split; [discriminate|].
  apply (C1_listing_exactly_labelled_orders store_7 no_params header_7).
  - discriminate.
  - simpl. now left.
  - exists label_7_X1. split; [simpl; now left | reflexivity].
Defined.


(** The claim C3 as stated fails on a label whose [barcodeId] is there and
    empty: the entry does not carry the label's own barcode field. *)
Lemma C3_counterexample_blank_barcode :
  In ("barcodeId", VStr "") label_7_blank /\
  get label_7_blank "barcodeId" = VStr "" /\
  fst (order_details (request_with "orderNr" "7") (mem_db store_7_blank))
  = Ok {| status := 200;
          body := OrderDetails (Int 7) VNull
                    [{| ItemNumber := VStr "X1"; Quantity := VUndefined;
                        ItemDescription := VUndefined;
                        PickAreaName := VUndefined;
                        SmallText := VNull; UOM := VNull;
                        BarcodeID := VStr "7-X1" |}] |} /\
  VStr "7-X1" <> get label_7_blank "barcodeId".
Proof.
  split; [|split; [|split]].
  - simpl. auto.
  - reflexivity.
  - reflexivity.
  - discriminate.
Qed.

Lemma C3_witness :
  exists pd ds,
    responds (order_details (request_with "orderNr" "7")) (mem_db store_7)
      {| status := 200; body := OrderDetails (Int 7) pd ds |} /\
    Forall2 (barcode_rule 7) [label_7_X1; label_7_B123] ds.
Proof.
  apply (proj1 C3_barcode_own_or_synthesized (mem_db store_7)
           (request_with "orderNr" "7") 7 [label_7_X1; label_7_B123]).
  - reflexivity.
  - reflexivity.
  - discriminate.
Defined.

(** The claim C4 as stated fails on ["3.9"], which is not an integer: the
    store is queried for order 3 and the response is a 404. *)
Lemma C4_counterexample_3_9 :
  is_integer_literal "3.9" = false /\
  order_details (request_with "orderNr" "3.9") (mem_db empty_store)
  = (Ok {| status := 404;
           body := ErrorBody "No valid labels found for OrderNr: 3" |},
     [Find "Labels" (labels_of_order 3)]) /\
  404 <> 400.
Proof. split; [reflexivity | split; [reflexivity | discriminate]]. Qed.

Lemma C4_witness :
  starts_with_integer (ToString (orderNr_param (request_with "orderNr" "abc")))
    = false /\
  order_details (request_with "orderNr" "abc") (failing_db boom) =
    (Ok {| status := 400; body := ErrorBody "OrderNr must be a valid number." |},
     []).
Proof.
  split; [reflexivity|].
  apply (C4_no_leading_integer_is_400 (failing_db boom)
           (request_with "orderNr" "abc")).
  reflexivity.
Defined.

Lemma C5_witness :
  responds (order_headers no_params) (mem_db empty_store)
    {| status := 404; body := ErrorBody "No valid orders found." |} /\
  responds (order_headers no_params) (mem_db store_no_headers)
    {| status := 404; body := ErrorBody "No matching orders found." |}.
Proof.
  split.
  - apply (proj1 (C5_listing_empty_results (mem_db empty_store) no_params)).
    reflexivity.
  - apply (proj1 (proj2 (C5_listing_empty_results (mem_db store_no_headers)
                           no_params)) [VNum (Int 7)]).
    + reflexivity.
    + discriminate.
    + reflexivity.
Defined.

(** The claim C6 as stated fails on a request for [/labels/]: it is not
    answered 400 but 404, by the fallback. *)
Lemma C6_counterexample_labels_slash :
  app_get "/labels/" (mem_db empty_store) =
    (Ok {| status := 404; body := ErrorBody "Route not found." |}, []) /\
  ~ (exists b, responds (app_get "/labels/") (mem_db empty_store)
                 {| status := 400; body := b |}).
Proof.
  split; [reflexivity|]. intros [b H]. discriminate H.
Qed.

Lemma C6_witness :
  labels (request_with "barcodeId" "") (failing_db boom) =
    (Ok {| status := 400; body := ErrorBody "Barcode ID is required." |}, []) /\
  responds (labels (request_with "barcodeId" "nope")) (mem_db store_7)
    {| status := 404; body := ErrorBody "Label not found for ID: nope" |} /\
  exists found,
    responds (labels (request_with "barcodeId" "B123")) (mem_db store_7)
      {| status := 200; body := Document found |} /\
    In found (Labels store_7) /\ get found "barcodeId" = VStr "B123" /\
    ((forall l', In l' (Labels store_7) -> get l' "barcodeId" = VStr "B123" ->
                 l' = label_7_B123) ->
     found = label_7_B123).
Proof.
  destruct C6_label_lookup as (Hmissing & _ & Hnone & Hfound).
  split; [|split].
  - apply Hmissing. now right.
  - apply (Hnone store_7 (request_with "barcodeId" "nope") "nope").
    + reflexivity.
    + discriminate.
    + intros l [<-|[<-|[]]]; discriminate.
  - apply (Hfound store_7 (request_with "barcodeId" "B123") "B123").
    + reflexivity.
    + discriminate.
    + simpl. auto.
    + reflexivity.
Defined.


Lemma C8_witness :
  exists pd ds,
    responds (order_details (request_with "orderNr" "7")) (mem_db store_7)
      {| status := 200; body := OrderDetails (Int 7) pd ds |} /\
    (present_but_falsy (get label_7_X1 "PlantDate") -> pd = VNull) /\
    Forall2 (falsy_rule 7) [label_7_X1; label_7_B123] ds.
Proof.
  apply (proj1 C8_falsy_fields_count_as_absent (mem_db store_7)
           (request_with "orderNr" "7") 7 label_7_X1 [label_7_B123]);
    reflexivity.
Defined.




(** ** Further properties: every request through the routes *)

Lemma append_assoc3 (a b c : string) : (a ++ b) ++ c = a ++ b ++ c.
Proof. induction a as [|x a IH]; simpl; [reflexivity | now rewrite IH]. Qed.

Ltac well_run_parts :=
  cbn [fine_run]; unfold well_run, usual_status; cbn [status body];
  split; [auto | split; [try discriminate; try (intros _; split; [reflexivity | reflexivity])
                        | split; [|split]]].

Ltac no_reject :=
  let Hin := fresh "Hin" in
  intros _ q e Hin;
  repeat (destruct Hin as [<-|Hin]); try contradiction;
  cbn [rejected]; try congruence; try tauto.

Ltac not_failed := discriminate.

Ltac was_failed := let H := fresh in intros H; exfalso; apply H; reflexivity.

Lemma order_headers_fine (db : Database) (req : request) :
  fine_run db (order_headers req db).
Proof.
  destruct (order_headers_cases db req)
    as [e Hd|Hd|Hd|vs e Hd Hvs Hf|vs Hd Hvs Hf|vs Hd Hvs Hf
       |vs orders Hd Hvs Hf Ho].
  - well_run_parts.
    + right; right; right; left. reflexivity.
    + intros _. exists [], (Distinct "Labels" "OrderNr"), e,
        "[ERROR] Error fetching valid orders: ".
      split; [reflexivity | exact Hd].
    + was_failed.
  - exists [], (Distinct "Labels" "OrderNr"). split; [reflexivity | exact Hd].
  - well_run_parts.
    + right; right; right; left. reflexivity.
    + not_failed.
    + no_reject.
  - well_run_parts.
    + do 4 right. exists vs. repeat split; auto.
    + intros _. exists [Distinct "Labels" "OrderNr"],
        (Find "OrderHeaders" (headers_query vs)), e,
        "[ERROR] Error fetching valid orders: ".
      split; [reflexivity | exact Hf].
    + was_failed.
  - exists [Distinct "Labels" "OrderNr"],
      (Find "OrderHeaders" (headers_query vs)).
    split; [reflexivity | exact Hf].
  - well_run_parts.
    + do 4 right. exists vs. repeat split; auto.
    + not_failed.
    + no_reject.
  - well_run_parts.
    + do 4 right. exists vs. repeat split; auto.
    + not_failed.
    + no_reject.
Qed.

Lemma order_details_fine (db : Database) (req : request) :
  fine_run db (order_details req db).
Proof.
  destruct (order_details_cases db req)
    as [Hp|x e Hp Hx Hf|x Hp Hx Hf|x Hp Hx Hf|x ls Hp Hx Hf Hls].
  - well_run_parts.
    + left. reflexivity.
    + not_failed.
    + no_reject.
  - well_run_parts.
    + right; left. now eexists.
    + intros _. exists [], (Find "Labels" (labels_of_number x)), e,
        "[ERROR] Error fetching order details: ".
      split; [reflexivity | exact Hf].
    + was_failed.
  - exists [], (Find "Labels" (labels_of_number x)).
    split; [reflexivity | exact Hf].
  - well_run_parts.
    + right; left. now eexists.
    + not_failed.
    + no_reject.
  - well_run_parts.
    + right; left. now eexists.
    + not_failed.
    + no_reject.
Qed.

Lemma labels_fine (db : Database) (req : request) :
  fine_run db (labels req db).
Proof.
  destruct (labels_cases db req) as [Ht|e Ht Hf|Ht Hf|Ht Hf|label Ht Hf].
  - well_run_parts.
    + left. reflexivity.
    + not_failed.
    + no_reject.
  - well_run_parts.
    + right; right; left. now eexists.
    + intros _. exists [searching req],
        (FindOne "Labels" (label_by_barcode req)), e,
        ("[ERROR] Fetching label failed for Barcode ID: "
         ++ ToString (barcodeId_param req) ++ ". Error: ").
      split; [|exact Hf].
      now rewrite !append_assoc3.
    + was_failed.
  - exists [searching req], (FindOne "Labels" (label_by_barcode req)).
    split; [reflexivity | exact Hf].
  - well_run_parts.
    + right; right; left. now eexists.
    + not_failed.
    + no_reject.
  - well_run_parts.
    + right; right; left. now eexists.
    + not_failed.
    + no_reject.
Qed.

(** Where a GET request ends up. *)
Lemma app_get_cases (path : string) (db : Database) :
  app_get path db = order_headers no_params db \/
  (exists v, app_get path db = order_details (request_with "orderNr" v) db) \/
  (exists v, v <> "" /\
             app_get path db = labels (request_with "barcodeId" v) db) \/
  app_get path db
    = (Ok {| status := 400; body := ErrorPage |},
       [ConsoleStack "error" "URIError"]) \/
  app_get path db
    = (Ok {| status := 404; body := ErrorBody "Route not found." |}, []).
Proof.
  unfold app_get.
  destruct (match_literal "/order-headers" path); [now left|].
  destruct (match_param "/order-details/" path) as [raw|].
  { unfold with_param. destruct (decodeURIComponent raw) as [v|].
    - right; left. now exists v.
    - do 3 right. now left. }
  destruct (match_param "/labels/" path) as [raw|] eqn:Hm.
  { unfold with_param. destruct (decodeURIComponent raw) as [v|] eqn:Hd.
    - right; right; left. exists v. split; [|reflexivity].
      apply (decodeURIComponent_nonempty raw v Hd).
      now apply match_param_nonempty in Hm.
    - do 3 right. now left. }
  do 4 right. reflexivity.
Qed.

Lemma app_get_fine (path : string) (db : Database) :
  fine_run db (app_get path db).
Proof.
  destruct (app_get_cases path db)
    as [H|[[v H]|[(v & _ & H)|[H|H]]]]; rewrite H.
  - apply order_headers_fine.
  - apply order_details_fine.
  - apply labels_fine.
  - well_run_parts.
    + intros _. split; [reflexivity | discriminate].
    + left. reflexivity.
    + not_failed.
    + no_reject.
  - well_run_parts.
    + left. reflexivity.
    + not_failed.
    + no_reject.
Qed.

Lemma app_get_well_run
    (path : string) (db : Database) (r : response) (t : list event) :
  app_get path db = (Ok r, t) -> well_run db r t.
Proof.
  intros H. pose proof (app_get_fine path db) as Hf. now rewrite H in Hf.
Qed.

(** A stalled call is a call of a store that does not settle. *)
Lemma settles_not_stalled (db : Database) (q : event) :
  settles db -> ~ stalled db q.
Proof.
  intros (Hd & Hf & Ho).
  destruct q as [c k|c f|c f|lv msg|lv name]; cbn [stalled]; auto.
Qed.

(** X1.  No exception leaves a handler.  A GET request without a body is
    answered with status 200, 400, 404 or 500, or it stays open, and then
    the last thing that happened is a store call that never settles.
    Against a store all of whose calls settle it is answered. *)
Theorem X1_every_request_is_answered (path : string) (db : Database) :
  ((exists r t, app_get path db = (Ok r, t) /\ usual_status r) \/
   (exists t, app_get path db = (Pending, t) /\ left_open db t)) /\
  (settles db -> exists r t, app_get path db = (Ok r, t) /\ usual_status r).
Proof.
  pose proof (app_get_fine path db) as Hf.
  destruct (app_get path db) as [[r|e|] t]; cbn [fine_run] in Hf.
  - destruct Hf as [Hu _]. split; [left|intros _]; now exists r, t.
  - contradiction.
  - split; [right; now exists t|].
    intros Hs. destruct Hf as (pre & q & _ & Hq).
    now destruct (settles_not_stalled db q Hs).
Qed.

(** X2.  A request answered 400 has made no store call; when the 400 is
    the handler's own, with its [{ error: ... }] body, nothing was written
    to the console either: validation comes before any other effect. *)
Theorem X2_rejected_input_has_no_effect
    (path : string) (db : Database) (r : response) (t : list event) :
  app_get path db = (Ok r, t) -> status r = 400 ->
  store_calls t = [] /\ (forall msg, body r = ErrorBody msg -> t = []).
Proof.
  intros H Hs. now apply (app_get_well_run path db r t H).
Qed.


(** X4.  A request is answered 500 exactly when one of the store calls it
    made was rejected; the rejected call is then the last one, and the
    message of its error is the last thing written, with
    [console.error].  A store that rejects no call never gets a 500. *)
Theorem X4_failure_comes_from_the_store
    (path : string) (db : Database) (r : response) (t : list event) :
  app_get path db = (Ok r, t) ->
  (status r = 500 <-> exists q e, In q t /\ rejected db q e) /\
  (status r = 500 -> failure_logged db t) /\
  (resolves db -> status r <> 500).
Proof.
  intros H. destruct (app_get_well_run path db r t H)
    as (_ & _ & _ & Hfail & Hquiet).
  split; [split|split; [assumption|]].
  - intros Hs. destruct (Hfail Hs) as (pre & q & e & prefix & -> & Hq).
    exists q, e. split; [|assumption].
    apply in_or_app. right. now left.
  - intros (q & e & Hin & Hq).
    destruct (Z.eq_dec (status r) 500) as [|Hne]; [assumption|].
    now destruct (Hquiet Hne q e Hin).
  - intros (Hd & Hf & Ho) Hs.
    destruct (Hfail Hs) as (pre & q & e & prefix & _ & Hq).
    destruct q as [c k|c f|c f|lv msg|lv name]; cbn [rejected] in Hq.
    + destruct (Hd c k) as [vs Hvs]. congruence.
    + destruct (Hf c f) as [ds Hds]. congruence.
    + destruct (Ho c f) as [d Hd']. congruence.
    + contradiction.
    + contradiction.
Qed.

(** ** The order detail, further *)

Lemma append_nonempty (a b : string) (c : ascii) : a ++ String c b <> "".
Proof. destruct a; discriminate. Qed.

Lemma append_inj_l (a x y : string) : a ++ x = a ++ y -> x = y.
Proof.
  induction a as [|c a IH]; simpl; [trivial|]. intros [= H]. now apply IH.
Qed.

Lemma or_else_null (v : value) : null_or_truthy (or_else v VNull).
Proof.
  unfold null_or_truthy, or_else. destruct (truthy v) eqn:E; [now right | now left].
Qed.

Lemma BarcodeID_truthy (n : number) (l : doc) :
  truthy (BarcodeID (detail_of n l)) = true.
Proof.
  unfold detail_of, or_else. cbn [BarcodeID].
  destruct (truthy (get l "barcodeId")) eqn:E; [assumption|].
  cbn [truthy]. apply negb_true_iff.
  destruct (String.eqb _ "") eqn:E'; [|reflexivity].
  apply String.eqb_eq in E'. now apply append_nonempty in E'.
Qed.

(** X5.  In every order detail response [PlantDate] and each entry's
    [SmallText] and [UOM] are [null] or truthy, never [undefined], and each
    entry's [BarcodeID] is truthy: it is never missing, [null] or empty. *)
Theorem X5_detail_fields_are_filled
    (db : Database) (req : request) (r : response)
    (o : number) (pd : value) (ds : list detail) :
  responds (order_details req) db r ->
  body r = OrderDetails o pd ds ->
  null_or_truthy pd /\
  Forall (fun e => null_or_truthy (SmallText e) /\ null_or_truthy (UOM e) /\
                   truthy (BarcodeID e) = true) ds.
Proof.
  intros Hr Hb.
  destruct (order_details_success db req r Hr
              (or_intror (ex_intro _ o (ex_intro _ pd (ex_intro _ ds Hb)))))
    as (n & ls & _ & _ & _ & _ & ->).
  cbn [body] in Hb. injection Hb as <- <- <-. split.
  - apply or_else_null.
  - apply Forall_map, Forall_forall. intros l _. repeat split.
    + apply or_else_null.
    + apply or_else_null.
    + apply BarcodeID_truthy.
Qed.

(** X6.  Two labels of one order that bring no barcode of their own get
    the same made-up [BarcodeID] exactly when their item numbers print the
    same: within an order the made-up identifiers tell the items apart. *)
Theorem X6_made_up_barcodes_tell_items_apart (n : Z) (l1 l2 : doc) :
  truthy (get l1 "barcodeId") = false ->
  truthy (get l2 "barcodeId") = false ->
  (BarcodeID (detail_of (Int n) l1) = BarcodeID (detail_of (Int n) l2) <->
   ToString (get l1 "ItemNumber") = ToString (get l2 "ItemNumber")).
Proof.
  intros H1 H2. unfold detail_of, or_else. cbn [BarcodeID].
  rewrite H1, H2. split.
  - intros [= H]. apply append_inj_l in H. now apply (append_inj_l "-") in H.
  - now intros ->.
Qed.

Lemma order_details_by_number (db : Database) (req1 req2 : request) :
  parseInt (orderNr_param req1) = parseInt (orderNr_param req2) ->
  order_details req1 db = order_details req2 db.
Proof.
  unfold orderNr_param, order_details. intros H. cbv zeta. now rewrite H.
Qed.

(** X7.  What follows the digits of the parameter is ignored altogether:
    with any store, a parameter made of an optional sign, digits and then
    more, starting with something that is not a digit, gets the same
    response, store calls and console output as that sign and those
    digits alone. *)
Theorem X7_text_after_the_digits_is_ignored
    (db : Database) (req : request)
    (sg : sign) (ds : list ascii) (c : ascii) (rest : string) :
  orderNr_param req
    = VStr (sign_text sg ++ string_of_list_ascii ds ++ String c rest) ->
  ds <> [] ->
  Forall (fun d => is_digit d = true) ds ->
  is_digit c = false ->
  order_details req db =
  order_details
    (request_with "orderNr" (sign_text sg ++ string_of_list_ascii ds)) db.
Proof.
  intros Hparam Hne Hds Hc. apply order_details_by_number.
  rewrite Hparam.
  change (orderNr_param (request_with "orderNr" ?s)) with (VStr s).
  unfold parseInt. cbn [ToString].
  rewrite (parseInt10_prefix sg ds (String c rest) Hne Hds Hc).
  pose proof (parseInt10_prefix sg ds "" Hne Hds eq_refl) as H.
  assert (Hnil : forall s, s ++ "" = s).
  { induction s as [|x s IH]; simpl; [reflexivity | now rewrite IH]. }
  rewrite Hnil in H. now rewrite H.
Qed.

(** ** The endpoints together *)

Lemma labelled_iff (st : Store) (h : doc) :
  labelled st h = true <->
  exists l, In l (Labels st) /\ get l "OrderNr" = get h "OrderNr".
Proof.
  unfold labelled. rewrite existsb_exists. split.
  - intros (l & Hl & He). exists l. split; [assumption|]. now apply value_eqb_eq.
  - intros (l & Hl & He). exists l. split; [assumption|]. now apply value_eqb_eq.
Qed.

Lemma listed_headers (st : Store) :
  (forall h, In h (OrderHeaders st) -> get h "OrderNr" <> VUndefined) ->
  List.filter (matches (headers_query (distinct_values "OrderNr" (Labels st))))
    (OrderHeaders st)
  = List.filter (labelled st) (OrderHeaders st).
Proof.
  intros Hall. apply filter_ext_in. intros h Hh.
  pose proof (header_matches st h (Hall h Hh)) as Hm.
  pose proof (labelled_iff st h) as Hl.
  destruct (matches _ h), (labelled st h); try reflexivity.
  - symmetry. apply Hl, Hm. reflexivity.
  - apply Hm, Hl. reflexivity.
Qed.

(** X8.  When every stored header carries an [OrderNr], the listing is 200
    with the stored headers that some label refers to, each as often as
    it is stored, however many labels the order has, in the order the
    store hands them out; it is a 404 when there is no such header. *)
Theorem X8_listing_is_the_labelled_headers (st : Store) (req : request) :
  (forall h, In h (OrderHeaders st) -> get h "OrderNr" <> VUndefined) ->
  let listed := List.filter (labelled st) (OrderHeaders st) in
  (listed <> [] ->
   exists orders,
     responds (order_headers req) (mem_db st)
       {| status := 200; body := DocArray orders |} /\
     Permutation orders listed)
  /\
  (listed = [] ->
   exists msg,
     responds (order_headers req) (mem_db st)
       {| status := 404; body := ErrorBody msg |}).
Proof.
  intros Hall listed. subst listed. rewrite <- (listed_headers st Hall).
  unfold responds.
  destruct (distinct_values "OrderNr" (Labels st)) as [|v vs] eqn:Evs.
  - assert (Hnone : List.filter (matches (headers_query [])) (OrderHeaders st) = []).
    { clear. unfold headers_query. induction (OrderHeaders st); simpl; auto. }
    rewrite Hnone. split; [congruence|]. intros _.
    rewrite (order_headers_no_numbers (mem_db st) req); [now eexists|].
    now rewrite mem_distinct, Evs.
  - pose proof (arrange_perm st
                  (List.filter (matches (headers_query (v :: vs)))
                     (OrderHeaders st))) as Hperm.
    change (arrange st (List.filter (matches (headers_query (v :: vs)))
                          (OrderHeaders st)))
      with (found_docs st "OrderHeaders" (headers_query (v :: vs))) in Hperm.
    destruct (found_docs st "OrderHeaders" (headers_query (v :: vs)))
      as [|o os] eqn:Ef.
    + apply Permutation_nil in Hperm. rewrite Hperm.
      split; [congruence|]. intros _.
      rewrite (order_headers_no_orders (mem_db st) req (v :: vs));
        [now eexists | now rewrite mem_distinct, Evs | discriminate | ].
      now rewrite mem_find_headers, Ef.
    + split.
      * intros _. exists (o :: os). split; [|assumption].
        rewrite (order_headers_found (mem_db st) req (v :: vs) (o :: os));
          [reflexivity | now rewrite mem_distinct, Evs | discriminate
          | | discriminate].
        now rewrite mem_find_headers, Ef.
      * intros Hnil. rewrite Hnil in Hperm.
        apply Permutation_sym, Permutation_nil in Hperm. discriminate.
Qed.

Lemma labels_success (db : Database) (req : request) (r : response) :
  responds (labels req) db r -> status r = 200 ->
  exists l,
    truthy (barcodeId_param req) = true /\
    findOne db "Labels" (label_by_barcode req) = Ok (Some l) /\
    r = {| status := 200; body := Document l |}.
Proof.
  unfold responds. intros Hr Hs.
  pose proof (labels_cases db req) as Hc.
  inversion Hc as [Ht Heq|e Ht Hf Heq|Ht Hf Heq|Ht Hf Heq|l Ht Hf Heq];
    rewrite <- Heq in Hr; cbn [fst] in Hr; try discriminate Hr;
    injection Hr as <-; cbn [status] in Hs; try discriminate Hs.
  now exists l.
Qed.

(** The detail response for the order [n] of a store that has a label of
    that order. *)
Lemma details_of_stored_order
    (st : Store) (req : request) (n : Z) (l : doc) :
  parseInt (orderNr_param req) = Int n ->
  In l (Labels st) -> get l "OrderNr" = VNum (Int n) ->
  responds (order_details req) (mem_db st)
    {| status := 200;
       body := OrderDetails (Int n)
                 (or_else (first_PlantDate (labels_with_OrderNr n st)) VNull)
                 (map (detail_of (Int n)) (labels_with_OrderNr n st)) |}.
Proof.
  intros Hp Hl Hg. unfold responds.
  rewrite (order_details_found (mem_db st) req n
             (labels_with_OrderNr n st)); [reflexivity | | | ].
  - assumption.
  - apply mem_find_labels.
  - intros Hnil.
    now apply (proj1 (labels_with_OrderNr_nil st n) Hnil l Hl).
Qed.

(** X9.  A label that the lookup by barcode returns, and whose [OrderNr]
    is the number [n], is there in the response to an order detail
    request whose parameter parses to [n]: that response is 200 and has
    an entry with the barcode asked for and the label's item number and
    quantity. *)
Theorem X9_found_label_is_in_its_order
    (st : Store) (id : string) (l : doc) (n : Z) (req : request) :
  responds (labels (request_with "barcodeId" id)) (mem_db st)
    {| status := 200; body := Document l |} ->
  get l "OrderNr" = VNum (Int n) ->
  parseInt (orderNr_param req) = Int n ->
  exists pd ds e,
    responds (order_details req) (mem_db st)
      {| status := 200; body := OrderDetails (Int n) pd ds |} /\
    In e ds /\ BarcodeID e = VStr id /\
    ItemNumber e = get l "ItemNumber" /\ Quantity e = get l "Quantity".
Proof.
  intros Hr Hn Hp.
  destruct (labels_success _ _ _ Hr eq_refl) as (l' & Ht & Hf & [= <-]).
  rewrite mem_findOne_barcode in Hf. injection Hf as Hf.
  apply hd_error_some, In_found_labels in Hf. destruct Hf as [Hl Hm].
  apply (matches_barcode (request_with "barcodeId" id) id l eq_refl) in Hm.
  eexists _, _, (detail_of (Int n) l). split; [|split; [|split; [|split]]].
  - apply (details_of_stored_order st req n l Hp Hl Hn).
  - apply in_map. now apply In_labels_with_OrderNr.
  - unfold detail_of, or_else. cbn [BarcodeID]. rewrite Hm.
    change (barcodeId_param (request_with "barcodeId" id)) with (VStr id) in Ht.
    now rewrite Ht.
  - reflexivity.
  - reflexivity.
Qed.

(** A stored header that some label refers to is listed. *)
Lemma labelled_header_is_listed (st : Store) (req : request) (h : doc) :
  get h "OrderNr" <> VUndefined ->
  In h (OrderHeaders st) ->
  (exists l, In l (Labels st) /\ get l "OrderNr" = get h "OrderNr") ->
  exists orders,
    responds (order_headers req) (mem_db st)
      {| status := 200; body := DocArray orders |} /\
    In h orders.
Proof.
  intros Hh Hst (l & Hl & Hg).
  set (vs := distinct_values "OrderNr" (Labels st)).
  set (found := found_docs st "OrderHeaders" (headers_query vs)).
  assert (Hf : In h found).
  { unfold found. apply In_found_headers. split; [assumption|].
    apply (header_matches st h Hh). now exists l. }
  exists found. split; [|assumption]. unfold responds.
  rewrite (order_headers_found (mem_db st) req vs found).
  - reflexivity.
  - apply mem_distinct.
  - intros Hvs.
    assert (Hv : In (get h "OrderNr") vs).
    { apply In_distinct_values. split; [assumption|]. now exists l. }
    rewrite Hvs in Hv. contradiction.
  - apply mem_find_headers.
  - intros Hnil. rewrite Hnil in Hf. contradiction.
Qed.

(** X10.  A stored header whose [OrderNr] is the number [n] is in the 200
    array of the listing exactly when an order detail request whose
    parameter parses to [n] is answered 200: what is listed has details,
    and what has details is listed. *)
Theorem X10_listed_exactly_when_detailed
    (st : Store) (req req' : request) (h : doc) (n : Z) :
  In h (OrderHeaders st) ->
  get h "OrderNr" = VNum (Int n) ->
  parseInt (orderNr_param req') = Int n ->
  ((exists orders,
      responds (order_headers req) (mem_db st)
        {| status := 200; body := DocArray orders |} /\
      In h orders)
   <->
   (exists pd ds,
      responds (order_details req') (mem_db st)
        {| status := 200; body := OrderDetails (Int n) pd ds |})).
Proof.
  intros Hst Hn Hparse.
  assert (Hh : get h "OrderNr" <> VUndefined) by (rewrite Hn; discriminate).
  split.
  - intros (orders & Hr & Hin).
    destruct (order_headers_success _ _ _ Hr (or_introl eq_refl))
      as (vs & os & Hd & _ & Hf & _ & [= ->]).
    rewrite mem_distinct in Hd. injection Hd as <-.
    rewrite mem_find_headers in Hf. injection Hf as <-.
    apply In_found_headers in Hin. destruct Hin as [_ Hm].
    apply (header_matches st h Hh) in Hm. destruct Hm as (l & Hl & Hg).
    rewrite Hn in Hg. eexists _, _.
    apply (details_of_stored_order st req' n l Hparse Hl Hg).
  - intros (pd & ds & Hr).
    destruct (order_details_success _ _ _ Hr (or_introl eq_refl))
      as (x & ls & Hp & _ & Hf & Hls & _).
    rewrite Hparse in Hp. subst x.
    change (labels_of_number (Int n)) with (labels_of_order n) in Hf.
    rewrite mem_find_labels in Hf. injection Hf as <-.
    destruct (labels_with_OrderNr n st) as [|l ls] eqn:E; [congruence|].
    assert (Hl : In l (labels_with_OrderNr n st)) by (rewrite E; now left).
    apply In_labels_with_OrderNr in Hl. destruct Hl as [Hl Hg].
    apply (labelled_header_is_listed st req h Hh Hst).
    exists l. split; [assumption|]. now rewrite Hn.
Qed.

(** ** From the URL to the handler *)

Lemma plain_no_slash (s : string) : plain s = true -> no_slash s = true.
Proof.
  induction s as [|c s IH]; simpl; [trivial|].
  intros H. apply andb_true_iff in H. destruct H as [H Hs].
  apply andb_true_iff in H. destruct H as [_ Hc].
  now rewrite Hc, (IH Hs).
Qed.

Lemma chop_slash_no_slash (s : string) : no_slash s = true -> chop_slash s = s.
Proof.
  induction s as [|c s IH]; [trivial|].
  intros H. cbn [no_slash] in H. apply andb_true_iff in H. destruct H as [Hc Hs].
  destruct s as [|d s'].
  - cbn [chop_slash]. apply negb_true_iff in Hc. now rewrite Hc.
  - change (chop_slash (String c (String d s')))
      with (String c (chop_slash (String d s'))).
    now rewrite (IH Hs).
Qed.

Lemma unescape_plain (s : string) :
  plain s = true -> unescape s = Some (map Plain (list_ascii_of_string s)).
Proof.
  induction s as [|c s IH]; [trivial|].
  intros H. cbn [plain] in H. apply andb_true_iff in H. destruct H as [H Hs].
  apply andb_true_iff in H. destruct H as [Hc _].
  apply negb_true_iff in Hc. cbn [unescape]. rewrite Hc, (IH Hs). reflexivity.
Qed.

Lemma utf8_plain (l : list ascii) : utf8 (map Plain l) = Some l.
Proof. induction l as [|c l IH]; simpl; [reflexivity | now rewrite IH]. Qed.

Lemma decodeURIComponent_plain (s : string) :
  plain s = true -> decodeURIComponent s = Some s.
Proof.
  intros H. unfold decodeURIComponent.
  rewrite (unescape_plain s H), utf8_plain. simpl.
  now rewrite string_of_list_ascii_of_string.
Qed.

Lemma segment_plain (s : string) :
  s <> "" -> plain s = true ->
  (if negb (String.eqb (chop_slash s) "") && no_slash (chop_slash s)
   then Some (chop_slash s) else None) = Some s.
Proof.
  intros Hne Hp. pose proof (plain_no_slash s Hp) as Hs.
  rewrite (chop_slash_no_slash s Hs), Hs.
  destruct (String.eqb s "") eqn:E; [|reflexivity].
  now apply String.eqb_eq in E.
Qed.

Lemma route_to_order_details (db : Database) (s : string) :
  s <> "" -> plain s = true ->
  app_get ("/order-details/" ++ s) db
  = order_details (request_with "orderNr" s) db.
Proof.
  intros Hne Hp. unfold app_get.
  change (match_literal "/order-headers" ("/order-details/" ++ s)) with false.
  cbv iota.
  change (match_param "/order-details/" ("/order-details/" ++ s))
    with (if negb (String.eqb (chop_slash s) "") && no_slash (chop_slash s)
          then Some (chop_slash s) else None).
  rewrite (segment_plain s Hne Hp). unfold with_param.
  now rewrite (decodeURIComponent_plain s Hp).
Qed.

Lemma plain_uint (d : Decimal.uint) : plain (NilEmpty.string_of_uint d) = true.
Proof. induction d; simpl; auto. Qed.

Lemma numeral_plain (z : Z) :
  decimal z <> "" /\ plain (decimal z) = true.
Proof.
  destruct z as [|p|p]; [split; [discriminate | reflexivity]| |];
    pose proof (Unsigned.to_uint_nonnil p) as Hnn;
    pose proof (plain_uint (Pos.to_uint p)) as Hp;
    destruct (string_of_uint_digit _ Hnn) as (c & r & Hcr & _);
    unfold decimal, Z.to_int, NilZero.string_of_int,
      NilZero.string_of_uint;
    destruct (Pos.to_uint p); try congruence;
    (split; [rewrite ?Hcr; discriminate | simpl in *; assumption]).
Qed.

(** X12.  A GET for [/order-details/<n>], written with all the decimal
    digits of an integer [n] below 2^53 in magnitude, runs the order
    detail handler for [n]: it is answered 404 with a message ending in
    those digits when no label has [OrderNr] [n], and otherwise 200 with
    [OrderNr] [n] and as many [Details] as there are such labels. *)
Theorem X12_order_details_by_url (st : Store) (n : Z) :
  Z.abs n < 2 ^ 53 ->
  let path := "/order-details/" ++ decimal n in
  (forall db,
     app_get path db = order_details (request_with "orderNr" (decimal n)) db)
  /\
  (labels_with_OrderNr n st = [] ->
   responds (app_get path) (mem_db st)
     {| status := 404;
        body := ErrorBody ("No valid labels found for OrderNr: "
                           ++ decimal n) |})
  /\
  (labels_with_OrderNr n st <> [] ->
   exists pd ds,
     responds (app_get path) (mem_db st)
       {| status := 200; body := OrderDetails (Int n) pd ds |} /\
     List.length ds = List.length (labels_with_OrderNr n st)).
Proof.
  intros Hn path. destruct (numeral_plain n) as [Hne Hp].
  set (req := request_with "orderNr" (decimal n)).
  assert (Hroute : forall db, app_get path db = order_details req db).
  { intros db. unfold path, req. now apply route_to_order_details. }
  assert (Hparse : parseInt (orderNr_param req) = Int n).
  { unfold req, parseInt.
    change (ToString (orderNr_param (request_with "orderNr" ?s))) with s.
    now rewrite parseInt10_decimal, (round_to_double_small n Hn). }
  split; [assumption|]. unfold responds. rewrite Hroute. split.
  - intros Hnil.
    rewrite (order_details_no_labels (mem_db st) req n Hparse);
      [now rewrite (Number_toString_small n Hn) | ].
    now rewrite mem_find_labels, Hnil.
  - intros Hls. eexists _, _. split.
    + rewrite (order_details_found (mem_db st) req n
                 (labels_with_OrderNr n st));
        [reflexivity | assumption | apply mem_find_labels | assumption].
    + apply length_map.
Qed.

(** ** Start-up *)

(** X13.  Start-up.  Without a non-empty [MONGODB_URI] the process writes
    the error and exits with code 1, no client made, no connection tried.
    The server listens only when the URI is set, the client was made and
    the connection succeeded, and then on [PORT], or on 3000 when [PORT]
    is unset or empty.  When the connection fails the process logs the
    error and exits with code 1 without listening. *)
Theorem X13_listens_only_when_connected (env : doc) (w : world) :
  (truthy (get env "MONGODB_URI") = false ->
   main env w =
     [BConsole "error" "[ERROR] MONGODB_URI is not defined in the .env file.";
      BExit 1])
  /\
  (forall p, In (BListen p) (main env w) ->
     truthy (get env "MONGODB_URI") = true /\
     new_client w = Ok tt /\ connect w = Ok tt /\
     p = if truthy (get env "PORT") then get env "PORT" else VNum (Int 3000))
  /\
  (forall e, truthy (get env "MONGODB_URI") = true ->
     new_client w = Ok tt -> connect w = Throw e ->
     main env w =
       [BNewClient (get env "MONGODB_URI"); BConnect;
        BConsoleError "[ERROR] MongoDB connection error:" e; BExit 1]).
Proof.
  unfold main, startServer, connection_error, port_of, or_else.
  split; [|split].
  - now intros ->.
  - intros p. destruct (truthy (get env "MONGODB_URI")); cbn [negb].
    + destruct (new_client w) as [[]|e|]; cbn [In].
      * destruct (connect w) as [[]|e|]; cbn [In].
        -- destruct (listen w); cbn [In];
             intros H; repeat (destruct H as [H|H]; try discriminate H);
             try contradiction; injection H as <-; now repeat split.
        -- intros H; repeat (destruct H as [H|H]; try discriminate H);
             contradiction.
        -- intros H; repeat (destruct H as [H|H]; try discriminate H);
             contradiction.
      * intros H; repeat (destruct H as [H|H]; try discriminate H);
          contradiction.
      * intros H; repeat (destruct H as [H|H]; try discriminate H);
          contradiction.
    + cbn [In]. intros H; repeat (destruct H as [H|H]; try discriminate H);
        contradiction.
  - intros e -> -> ->. reflexivity.
Qed.

(** ** The further properties at concrete requests *)

Lemma mem_db_resolves (st : Store) : resolves (mem_db st).
Proof. repeat split; intros; now eexists. Qed.

Lemma settles_failing_db (e : error) : settles (failing_db e).
Proof. repeat split; intros; discriminate. Qed.

Lemma X1_witness :
  settles (failing_db boom) /\
  exists r t,
    app_get "/labels/B123" (failing_db boom) = (Ok r, t) /\ usual_status r.
Proof.
  split; [apply settles_failing_db|].
  apply (proj2 (X1_every_request_is_answered "/labels/B123" (failing_db boom))).
  apply settles_failing_db.
Defined.

Lemma X2_witness :
  app_get "/order-details/abc" (failing_db boom)
  = (Ok {| status := 400; body := ErrorBody "OrderNr must be a valid number." |},
     []) /\
  store_calls [] = [] /\
  (forall msg, ErrorBody "OrderNr must be a valid number." = ErrorBody msg ->
               @nil event = []).
Proof.
  split; [reflexivity|].
  apply (X2_rejected_input_has_no_effect "/order-details/abc" (failing_db boom)
           {| status := 400; body := ErrorBody "OrderNr must be a valid number." |}
           []); reflexivity.
Defined.


Lemma X4_witness :
  failure_logged (failing_db boom)
    [Console "log" "[DEBUG] Searching for label with Barcode ID: B123";
     FindOne "Labels" (FEq "barcodeId" (VStr "B123"));
     Console "error"
       "[ERROR] Fetching label failed for Barcode ID: B123. Error: connection reset"]
  /\
  (forall r t, app_get "/labels/B123" (mem_db store_7) = (Ok r, t) ->
               status r <> 500).
Proof.
  split.
  - apply (proj1 (proj2 (X4_failure_comes_from_the_store "/labels/B123"
                           (failing_db boom)
                           {| status := 500;
                              body := ErrorBody "Error fetching label." |}
                           _ eq_refl))).
    reflexivity.
  - intros r t H.
    apply (proj2 (proj2 (X4_failure_comes_from_the_store "/labels/B123"
                           (mem_db store_7) r t H))).
    apply mem_db_resolves.
Defined.

Lemma X5_witness :
  null_or_truthy VNull /\
  Forall (fun e => null_or_truthy (SmallText e) /\ null_or_truthy (UOM e) /\
                   truthy (BarcodeID e) = true)
    [detail_of (Int 7) label_7_X1; detail_of (Int 7) label_7_B123].
Proof.
  apply (X5_detail_fields_are_filled (mem_db store_7)
           (request_with "orderNr" "7")
           {| status := 200;
              body := OrderDetails (Int 7) VNull
                        [detail_of (Int 7) label_7_X1;
                         detail_of (Int 7) label_7_B123] |}
           (Int 7)); reflexivity.
Defined.

Lemma X6_witness :
  BarcodeID (detail_of (Int 7) label_7_X1)
  = BarcodeID (detail_of (Int 7) label_7_blank) <->
  ToString (get label_7_X1 "ItemNumber")
  = ToString (get label_7_blank "ItemNumber").
Proof.
  apply (X6_made_up_barcodes_tell_items_apart 7 label_7_X1 label_7_blank);
    reflexivity.
Defined.

Lemma X7_witness :
  order_details (request_with "orderNr" "12abc") (failing_db boom)
  = order_details (request_with "orderNr" "12") (failing_db boom).
Proof.
  apply (X7_text_after_the_digits_is_ignored (failing_db boom)
           (request_with "orderNr" "12abc") NoSign ["1"; "2"]%char
           "a"%char "bc").
  - reflexivity.
  - discriminate.
  - repeat constructor.
  - reflexivity.
Defined.

Lemma X8_witness :
  exists orders,
    responds (order_headers no_params) (mem_db store_7)
      {| status := 200; body := DocArray orders |} /\
    Permutation orders [header_7].
Proof.
  apply (proj1 (X8_listing_is_the_labelled_headers store_7 no_params
                  ltac:(intros h [<-|[<-|[]]]; discriminate))).
  discriminate.
Defined.

Lemma X9_witness :
  exists pd ds e,
    responds (order_details (request_with "orderNr" "7")) (mem_db store_7)
      {| status := 200; body := OrderDetails (Int 7) pd ds |} /\
    In e ds /\ BarcodeID e = VStr "B123" /\
    ItemNumber e = get label_7_B123 "ItemNumber" /\
    Quantity e = get label_7_B123 "Quantity".
Proof.
  apply (X9_found_label_is_in_its_order store_7 "B123" label_7_B123 7
           (request_with "orderNr" "7"));
    reflexivity.
Defined.

Lemma X10_witness :
  exists pd ds,
    responds (order_details (request_with "orderNr" "7abc")) (mem_db store_7)
      {| status := 200; body := OrderDetails (Int 7) pd ds |}.
Proof.
  apply (proj1 (X10_listed_exactly_when_detailed store_7 no_params
                  (request_with "orderNr" "7abc") header_7 7
                  ltac:(simpl; auto) eq_refl eq_refl)).
  exists [header_7]. split; [reflexivity | simpl; auto].
Defined.

Lemma X12_witness :
  responds (app_get "/order-details/9") (mem_db store_7)
    {| status := 404; body := ErrorBody "No valid labels found for OrderNr: 9" |}
  /\
  exists pd ds,
    responds (app_get "/order-details/7") (mem_db store_7)
      {| status := 200; body := OrderDetails (Int 7) pd ds |} /\
    List.length ds = 2%nat.
Proof.
  split.
  - apply (proj1 (proj2 (X12_order_details_by_url store_7 9
                           ltac:(simpl; lia)))).
    reflexivity.
  - apply (proj2 (proj2 (X12_order_details_by_url store_7 7
                           ltac:(simpl; lia)))).
    discriminate.
Defined.

Lemma X13_witness :
  main [] calm_world =
    [BConsole "error" "[ERROR] MONGODB_URI is not defined in the .env file.";
     BExit 1]
  /\
  (truthy (get env_sample "MONGODB_URI") = true /\
   new_client calm_world = Ok tt /\ connect calm_world = Ok tt /\
   VNum (Int 3000) = VNum (Int 3000)).
Proof.
  split.
  - apply (proj1 (X13_listens_only_when_connected [] calm_world)). reflexivity.
  - apply (proj1 (proj2 (X13_listens_only_when_connected env_sample calm_world))
             (VNum (Int 3000))).
    simpl. auto.
Defined.
